(** * Age calculator: the calculation engine, its calendar tables,
      its validators and the flat serialisation of its results.

    The Python sources are embedded as executable definitions: integers
    are [Z] (Python integers are unbounded), text is a list of code
    points, a raised exception is the [Raise] branch of a result type,
    a [dict] is a [gmap], and every class keeps its name as a module. *)

From Stdlib Require Import ZArith Ascii String List Lia.
From stdpp Require Import base numbers list list_numbers option strings gmap pretty.

Local Open Scope Z_scope.

(** ** Python text *)

(** A Python [str] is a sequence of Unicode code points; [len] counts them. *)
Abbreviation str := (list N).

(** A source literal, read code point by code point. *)
Definition py_str (s : string) : str :=
  (λ a, N_of_ascii a) <$> list_ascii_of_string s.

Definition len (s : str) : Z := Z.of_nat (length s).

Module Str.

(** [str.isspace] on one code point: the white-space table of CPython. *)
Definition isspace (c : N) : bool :=
  ((9 <=? c) && (c <=? 13) || (28 <=? c) && (c <=? 32)
   || (c =? 133) || (c =? 160) || (c =? 5760)
   || (8192 <=? c) && (c <=? 8202)
   || (c =? 8232) || (c =? 8233) || (c =? 8239) || (c =? 8287)
   || (c =? 12288))%N.

Fixpoint lstrip (s : str) : str :=
  match s with
  | c :: s' => if isspace c then lstrip s' else s
  | [] => []
  end.

Definition rstrip (s : str) : str := reverse (lstrip (reverse s)).

(** [s.strip()] *)
Definition strip (s : str) : str := rstrip (lstrip s).

(** [c in s] for a one-character [c]. *)
Definition contains (s : str) (c : N) : bool := bool_decide (c ∈ s).

End Str.

(** ** Python objects that travel through a [dict] *)

(** The values [to_dict] stores: [None], an [int] or a [str]. *)
Inductive pyval :=
| PyNone
| PyInt (n : Z)
| PyStr (s : str).

Global Instance pyval_eq_dec : EqDecision pyval.
Proof. solve_decision. Defined.

(** Truth value of an object, as [if v] and [not v] test it. *)
Definition truthy (v : pyval) : bool :=
  match v with
  | PyNone => false
  | PyInt n => negb (n =? 0)
  | PyStr s => negb (bool_decide (s = []))
  end.

Definition not_ (v : pyval) : bool := negb (truthy v).

(** ** Exceptions *)

Inductive exn :=
| ValueError (message : str)
| KeyError (key : pyval)
| TypeError
| AttributeError
| NameValidationException (message name_value reason : str)
| AgeValidationException (message : str) (age_value min_age max_age : Z).

(** A call either returns or raises. *)
Inductive result (A : Type) :=
| Ok (a : A)
| Raise (e : exn).
Global Arguments Ok {A} a.
Global Arguments Raise {A} e.

Global Instance result_ret : MRet result := λ A a, Ok a.

Global Instance result_bind : MBind result := λ A B k c,
  match c with
  | Ok a => k a
  | Raise e => Raise e
  end.

Definition returns {A} (c : result A) : Prop := ∃ a, c = Ok a.
Definition raises {A} (c : result A) : Prop := ∃ e, c = Raise e.

(** [for x in xs: body] over an accumulator; a raise leaves the loop. *)
Fixpoint for_ {A S} (xs : list A) (body : A → S → result S) (s : S) : result S :=
  match xs with
  | [] => Ok s
  | x :: xs' => s' ← body x s; for_ xs' body s'
  end.

(** [range(a, b)]: empty when [b <= a]. *)
Definition range (a b : Z) : list Z := seqZ a (b - a).

(** ** Operators on objects *)

(** [a == b] between objects that are [None], an [int] or a [str]. *)
Definition eq_ (a b : pyval) : bool := bool_decide (a = b).

(** [v or d] *)
Definition or_ (v d : pyval) : pyval := if truthy v then v else d.

(** [v // k]: only an [int] divides. *)
Definition floordiv (v : pyval) (k : Z) : result pyval :=
  match v with
  | PyInt n => Ok (PyInt (n `div` k))
  | PyStr _ | PyNone => Raise TypeError
  end.

(** [v * k]: an [int] is multiplied, a [str] is repeated. *)
Definition mul (v : pyval) (k : Z) : result pyval :=
  match v with
  | PyInt n => Ok (PyInt (n * k))
  | PyStr s => Ok (PyStr (mjoin (replicate (Z.to_nat k) s)))
  | PyNone => Raise TypeError
  end.

(** ** core.interfaces *)

Class ILeapYearCalculator := {
  is_leap_year : Z → bool;
  get_days_in_year : Z → Z
}.

Class IMonthDaysCalculator := {
  get_days_in_month : Z → bool → result Z;
  get_days_up_to_month : Z → bool → result Z
}.

(** ** core.services: the calendar *)

(** [calendar.isleap] of the Python standard library. [%] is the floored
    remainder, which is [Z.modulo] for a positive divisor. *)
Definition isleap (year : Z) : bool :=
  (year mod 4 =? 0) && (negb (year mod 100 =? 0) || (year mod 400 =? 0)).

Module StandardLeapYearCalculator.

Definition is_leap_year (year : Z) : bool := isleap year.

Definition get_days_in_year (year : Z) : Z :=
  if is_leap_year year then 366 else 365.

Definition new : ILeapYearCalculator :=
Build_ILeapYearCalculator is_leap_year get_days_in_year.

End StandardLeapYearCalculator.

Module StandardMonthDaysCalculator.

Definition DAYS_IN_MONTH : gmap Z Z :=
  list_to_map
    [(1, 31); (2, 28); (3, 31); (4, 30); (5, 31); (6, 30);
     (7, 31); (8, 31); (9, 30); (10, 31); (11, 30); (12, 31)].

Definition DAYS_IN_MONTH_LEAP : gmap Z Z :=
  list_to_map
    [(1, 31); (2, 29); (3, 31); (4, 30); (5, 31); (6, 30);
     (7, 31); (8, 31); (9, 30); (10, 31); (11, 30); (12, 31)].

Definition invalid_month (month : Z) : exn :=
  ValueError (py_str ("Invalid month: " +:+ pretty month)).

(** [lookup[month]] *)
Definition getitem (lookup : gmap Z Z) (month : Z) : result Z :=
  match lookup !! month with
  | Some d => Ok d
  | None => Raise (KeyError (PyInt month))
  end.

Definition get_days_in_month (month : Z) (is_leap_year : bool) : result Z :=
  if (month <? 1) || (month >? 12) then Raise (invalid_month month)
  else
    let lookup := if is_leap_year then DAYS_IN_MONTH_LEAP else DAYS_IN_MONTH in
    getitem lookup month.

Definition get_days_up_to_month (month : Z) (is_leap_year : bool) : result Z :=
  if (month <? 1) || (month >? 12) then Raise (invalid_month month)
  else
    for_ (range 1 month)
      (λ m total, d ← get_days_in_month m is_leap_year; Ok (total + d))
      0.

Definition new : IMonthDaysCalculator :=
Build_IMonthDaysCalculator get_days_in_month get_days_up_to_month.

End StandardMonthDaysCalculator.


(** ** datetime *)

(** A [datetime.datetime] value, by its fields. *)
Record datetime := {
  dt_year : Z; dt_month : Z; dt_day : Z;
  dt_hour : Z; dt_minute : Z; dt_second : Z; dt_microsecond : Z
}.

(** A two-digit, zero-padded field of [strftime]. *)
Definition pad2 (n : Z) : string :=
  if n <? 10 then "0" +:+ pretty n else pretty n.

(** [d.strftime("%Y-%m-%d %H:%M:%S")], for a four-digit year. *)
Definition strftime_ymd_hms (d : datetime) : str :=
  py_str (pretty (dt_year d) +:+ "-" +:+ pad2 (dt_month d) +:+ "-" +:+ pad2 (dt_day d)
          +:+ " " +:+ pad2 (dt_hour d) +:+ ":" +:+ pad2 (dt_minute d)
          +:+ ":" +:+ pad2 (dt_second d)).

(** What the process reads from outside during one call: the text of a
    fresh [uuid.uuid4()] and the reading of [datetime.now()]. *)
Record ambient := {
  uuid4 : str;
  datetime_now : datetime
}.

(** The injected date source; one instance is one reading of "now". *)
Class IDateTimeProvider := {
  get_current_time : datetime;
  get_current_year : Z;
  get_current_month : Z;
  get_current_day : Z
}.

(** ** config.application_config *)

Module ValidationConfig.

Record t := {
  min_age : Z;
  max_age : Z;
  min_name_length : Z;
  max_name_length : Z;
  allowed_name_characters : str;
  strict_name_validation : bool
}.

(** The dataclass defaults. *)
Definition default : t :=
  {| min_age := 0;
     max_age := 150;
     min_name_length := 1;
     max_name_length := 100;
     allowed_name_characters :=
       py_str "abcdefghijklmnopqrstuvwxyzABCDEFGHIJKLMNOPQRSTUVWXYZ -'";
     strict_name_validation := false |}.

End ValidationConfig.

(** ** domain.value_objects *)

Module PersonName.

Record t := { value : str }.

Definition empty_name : exn := ValueError (py_str "Name cannot be empty").

(** [PersonName(value)]: the dataclass constructor followed by
    [__post_init__]. An [int] that is not zero has no [strip]. *)
Definition new (value : pyval) : result t :=
  match value with
  | PyStr s =>
      if not_ (PyStr s) || not_ (PyStr (Str.strip s)) then Raise empty_name
      else Ok {| value := s |}
  | PyInt n => if not_ (PyInt n) then Raise empty_name else Raise AttributeError
  | PyNone => Raise empty_name
  end.

Definition __str__ (self : t) : str := value self.

(** [self.value.strip().title()]; [str.title] of the Python library is
    the parameter [title]. *)
Definition get_display_name (title : str → str) (self : t) : str :=
  title (Str.strip (value self)).

End PersonName.

Module Age.

Record t := { years : Z }.

Definition negative_age : exn := ValueError (py_str "Age cannot be negative").

(** [Age(years)]: the constructor followed by [__post_init__]; [<]
    between a [str] or [None] and [0] is a [TypeError]. *)
Definition new (years : pyval) : result t :=
  match years with
  | PyInt n => if n <? 0 then Raise negative_age else Ok {| years := n |}
  | PyStr _ | PyNone => Raise TypeError
  end.

Definition to_months (self : t) (current_month : Z) : Z :=
  years self * 12 + current_month.

Definition is_adult (self : t) (adult_age : Z) : bool := years self >=? adult_age.

End Age.

(** The remaining value objects check nothing: they hold what they get. *)
Module AgeInMonths.
Record t := { months : pyval }.
Definition to_years (self : t) : result pyval := floordiv (months self) 12.
End AgeInMonths.

Module AgeInDays.
Record t := { days : pyval }.
Definition to_weeks (self : t) : result pyval := floordiv (days self) 7.
Definition to_hours (self : t) : result pyval := mul (days self) 24.
End AgeInDays.

Module AgeInWeeks.
Record t := { weeks : pyval }.
End AgeInWeeks.

Module AgeInHours.
Record t := { hours : pyval }.
End AgeInHours.

Module AgeInMinutes.
Record t := { minutes : pyval }.
End AgeInMinutes.

Module CalculationTimestamp.

Record t := { timestamp : datetime }.

Definition now (w : ambient) : t := {| timestamp := datetime_now w |}.

Definition __str__ (self : t) : str := strftime_ymd_hms (timestamp self).

End CalculationTimestamp.

(** ** domain.entities *)

(** [x.f if x else None] on an optional value object: an instance of a
    dataclass is always true. *)
Definition field_or_none {A} (x : option A) (f : A → pyval) : pyval :=
  match x with
  | Some a => f a
  | None => PyNone
  end.

Module AgeCalculationResult.

Record t := {
  id : pyval;
  name : option PersonName.t;
  age_years : option Age.t;
  age_months : option AgeInMonths.t;
  age_days : option AgeInDays.t;
  age_weeks : option AgeInWeeks.t;
  age_hours : option AgeInHours.t;
  age_minutes : option AgeInMinutes.t;
  calculation_timestamp : CalculationTimestamp.t;
  birth_year : pyval;
  current_year : pyval
}.

Definition to_dict (self : t) : gmap string pyval :=
  list_to_map
    [("id"%string, id self);
     ("name"%string, field_or_none (name self) (λ n, PyStr (PersonName.__str__ n)));
     ("age_years"%string, field_or_none (age_years self) (λ a, PyInt (Age.years a)));
     ("age_months"%string, field_or_none (age_months self) AgeInMonths.months);
     ("age_days"%string, field_or_none (age_days self) AgeInDays.days);
     ("age_weeks"%string, field_or_none (age_weeks self) AgeInWeeks.weeks);
     ("age_hours"%string, field_or_none (age_hours self) AgeInHours.hours);
     ("age_minutes"%string, field_or_none (age_minutes self) AgeInMinutes.minutes);
     ("calculation_timestamp"%string,
      PyStr (CalculationTimestamp.__str__ (calculation_timestamp self)));
     ("birth_year"%string, birth_year self);
     ("current_year"%string, current_year self)].

End AgeCalculationResult.

Module CalculationRequest.

Record t := {
  id : str;
  name : str;
  age_in_years : Z;
  include_months : bool;
  include_days : bool;
  include_weeks : bool;
  include_hours : bool;
  include_minutes : bool;
  requested_at : datetime
}.

Definition validate (self : t) : bool :=
  truthy (PyStr (name self)) && (age_in_years self >=? 0).

End CalculationRequest.

(** ** core.services: validation *)

Module InputValidationService.

Import ValidationConfig.

Record t := { _config : ValidationConfig.t }.

Definition validate_name (self : t) (name : str) : bool :=
  if not_ (PyStr name) || not_ (PyStr (Str.strip name)) then false
  else if len name <? min_name_length (_config self) then false
  else if len name >? max_name_length (_config self) then false
  else if strict_name_validation (_config self) then
    forallb (Str.contains (allowed_name_characters (_config self))) name
  else true.

Definition validate_age (self : t) (age : Z) : bool :=
  (min_age (_config self) <=? age) && (age <=? max_age (_config self)).

Definition validate_request (self : t) (request : CalculationRequest.t) : list str :=
  let errors := [] in
  let errors :=
    if negb (validate_name self (CalculationRequest.name request)) then
      errors ++ [py_str ("Invalid name: must be "
                         +:+ pretty (min_name_length (_config self)) +:+ "-"
                         +:+ pretty (max_name_length (_config self)) +:+ " characters")]
    else errors in
  let errors :=
    if negb (validate_age self (CalculationRequest.age_in_years request)) then
      errors ++ [py_str ("Invalid age: must be between "
                         +:+ pretty (min_age (_config self)) +:+ " and "
                         +:+ pretty (max_age (_config self)))]
    else errors in
  errors.

Definition validate_name_with_exception (self : t) (name : str) : result unit :=
  if not_ (PyStr name) || not_ (PyStr (Str.strip name)) then
    Raise (NameValidationException
             (py_str "Name cannot be empty") name (py_str "empty_value"))
  else if len name <? min_name_length (_config self) then
    Raise (NameValidationException
             (py_str ("Name must be at least "
                      +:+ pretty (min_name_length (_config self)) +:+ " characters"))
             name (py_str "too_short"))
  else if len name >? max_name_length (_config self) then
    Raise (NameValidationException
             (py_str ("Name cannot exceed "
                      +:+ pretty (max_name_length (_config self)) +:+ " characters"))
             name (py_str "too_long"))
  else Ok ().

Definition validate_age_with_exception (self : t) (age : Z) : result unit :=
  if (age <? min_age (_config self)) || (age >? max_age (_config self)) then
    Raise (AgeValidationException
             (py_str ("Age must be between "
                      +:+ pretty (min_age (_config self)) +:+ " and "
                      +:+ pretty (max_age (_config self))))
             age (min_age (_config self)) (max_age (_config self)))
  else Ok ().

End InputValidationService.

(** ** core.services: the engine *)

Module AgeCalculatorServiceImpl.

Record t := {
  _datetime_provider : IDateTimeProvider;
  _leap_year_calculator : ILeapYearCalculator;
  _month_days_calculator : IMonthDaysCalculator;
  _validation_service : InputValidationService.t
}.

Definition _calculate_total_days (self : t)
    (age_years current_year current_month current_day : Z) : result Z :=
  let birth_year := current_year - age_years in
  let total_days := 0 in
  total_days ←
    for_ (range birth_year current_year)
      (λ year total_days,
         Ok (total_days + @get_days_in_year (_leap_year_calculator self) year))
      total_days;
  let is_current_leap := @is_leap_year (_leap_year_calculator self) current_year in
  total_days ←
    for_ (range 1 current_month)
      (λ month total_days,
         d ← @get_days_in_month (_month_days_calculator self) month is_current_leap;
         Ok (total_days + d))
      total_days;
  let total_days := total_days + current_day in
  Ok total_days.

Definition calculate_age (self : t) (w : ambient) (name : str) (age_years : Z)
    : result AgeCalculationResult.t :=
  InputValidationService.validate_name_with_exception (_validation_service self) name;;
  InputValidationService.validate_age_with_exception (_validation_service self) age_years;;
  let current_year := @get_current_year (_datetime_provider self) in
  let current_month := @get_current_month (_datetime_provider self) in
  let current_day := @get_current_day (_datetime_provider self) in
  total_days ←
    _calculate_total_days self age_years current_year current_month current_day;
  let total_months := age_years * 12 + current_month in
  let total_weeks := total_days `div` 7 in
  let total_hours := total_days * 24 in
  let total_minutes := total_hours * 60 in
  let birth_year := current_year - age_years in
  name' ← PersonName.new (PyStr name);
  age_years' ← Age.new (PyInt age_years);
  Ok {| AgeCalculationResult.id := PyStr (uuid4 w);
        AgeCalculationResult.name := Some name';
        AgeCalculationResult.age_years := Some age_years';
        AgeCalculationResult.age_months :=
          Some {| AgeInMonths.months := PyInt total_months |};
        AgeCalculationResult.age_days :=
          Some {| AgeInDays.days := PyInt total_days |};
        AgeCalculationResult.age_weeks :=
          Some {| AgeInWeeks.weeks := PyInt total_weeks |};
        AgeCalculationResult.age_hours :=
          Some {| AgeInHours.hours := PyInt total_hours |};
        AgeCalculationResult.age_minutes :=
          Some {| AgeInMinutes.minutes := PyInt total_minutes |};
        AgeCalculationResult.calculation_timestamp := CalculationTimestamp.now w;
        AgeCalculationResult.birth_year := PyInt birth_year;
        AgeCalculationResult.current_year := PyInt current_year |}.

Definition calculate_days_lived (self : t) (age_years : Z) : result Z :=
  let current_year := @get_current_year (_datetime_provider self) in
  let current_month := @get_current_month (_datetime_provider self) in
  let current_day := @get_current_day (_datetime_provider self) in
  _calculate_total_days self age_years current_year current_month current_day.

Definition calculate_months_lived (self : t) (age_years : Z) : Z :=
  let current_month := @get_current_month (_datetime_provider self) in
  age_years * 12 + current_month.

End AgeCalculatorServiceImpl.

(** ** infrastructure.repositories *)

Module FileBasedCalculationRepository.

(** [data.get(key)] and [data.get(key, default)] *)
Definition get (data : gmap string pyval) (key : string) (default : pyval) : pyval :=
  match data !! key with
  | Some v => v
  | None => default
  end.

(** [data[key]] *)
Definition getitem (data : gmap string pyval) (key : string) : result pyval :=
  match data !! key with
  | Some v => Ok v
  | None => Raise (KeyError (PyStr (py_str key)))
  end.

(** [C(data[key]) if data.get(key) else None] *)
Definition build_if {A} (data : gmap string pyval) (key : string)
    (C : pyval → result A) : result (option A) :=
  if truthy (get data key PyNone) then
    v ← getitem data key; a ← C v; Ok (Some a)
  else Ok None.

Definition _dict_to_result (w : ambient) (data : gmap string pyval)
    : result AgeCalculationResult.t :=
  let id := get data "id" (PyStr []) in
  name ← build_if data "name" PersonName.new;
  age_years ← build_if data "age_years" Age.new;
  age_months ← build_if data "age_months" (λ v, Ok (AgeInMonths.Build_t v));
  age_days ← build_if data "age_days" (λ v, Ok (AgeInDays.Build_t v));
  age_weeks ← build_if data "age_weeks" (λ v, Ok (AgeInWeeks.Build_t v));
  age_hours ← build_if data "age_hours" (λ v, Ok (AgeInHours.Build_t v));
  age_minutes ← build_if data "age_minutes" (λ v, Ok (AgeInMinutes.Build_t v));
  let birth_year := get data "birth_year" PyNone in
  let current_year := get data "current_year" PyNone in
  Ok {| AgeCalculationResult.id := id;
        AgeCalculationResult.name := name;
        AgeCalculationResult.age_years := age_years;
        AgeCalculationResult.age_months := age_months;
        AgeCalculationResult.age_days := age_days;
        AgeCalculationResult.age_weeks := age_weeks;
        AgeCalculationResult.age_hours := age_hours;
        AgeCalculationResult.age_minutes := age_minutes;
        AgeCalculationResult.calculation_timestamp := CalculationTimestamp.now w;
        AgeCalculationResult.birth_year := birth_year;
        AgeCalculationResult.current_year := current_year |}.

(** The file behind [_file_path]: absent, present without being JSON,
    or holding the list of flat records that [_save_data] wrote
    ([json.dump] then [json.load] gives such a list back as it was). *)
Inductive file :=
| Missing
| Garbage
| Json (data : list (gmap string pyval)).

(** The constructor: [_ensure_file_exists]. *)
Definition new (f : file) : file :=
  match f with
  | Missing => Json []
  | Garbage | Json _ => f
  end.

Definition _load_data (f : file) : list (gmap string pyval) :=
  match f with
  | Json data => data
  | Missing | Garbage => []
  end.

Definition _save_data (data : list (gmap string pyval)) : file := Json data.

(** [item.get('id') == id] *)
Definition has_id (id : pyval) (item : gmap string pyval) : bool :=
  eq_ (get item "id" PyNone) id.

(** [next((i for i, item in enumerate(data) if ...), None)] *)
Fixpoint first_index (p : gmap string pyval → bool)
    (data : list (gmap string pyval)) : option nat :=
  match data with
  | [] => None
  | item :: data' => if p item then Some 0%nat else S <$> first_index p data'
  end.

Definition save (f : file) (result : AgeCalculationResult.t) : pyval * file :=
  let data := _load_data f in
  let result_dict := AgeCalculationResult.to_dict result in
  let existing_idx := first_index (has_id (AgeCalculationResult.id result)) data in
  let data :=
    match existing_idx with
    | Some i => <[i := result_dict]> data
    | None => data ++ [result_dict]
    end in
  (AgeCalculationResult.id result, _save_data data).

(** The loop of [get_by_id] over the loaded records. *)
Fixpoint get_by_id_in (w : ambient) (data : list (gmap string pyval)) (id : pyval)
    : result (option AgeCalculationResult.t) :=
  match data with
  | [] => Ok None
  | item :: data' =>
      if has_id id item then r ← _dict_to_result w item; Ok (Some r)
      else get_by_id_in w data' id
  end.

Definition get_by_id (w : ambient) (f : file) (id : pyval)
    : result (option AgeCalculationResult.t) :=
  get_by_id_in w (_load_data f) id.

Definition delete (f : file) (id : pyval) : bool * file :=
  let data := _load_data f in
  let original_length := length data in
  let data := List.filter (λ item, negb (has_id id item)) data in
  if (length data <? original_length)%nat then (true, _save_data data)
  else (false, f).

Definition clear_all (f : file) : Z * file :=
  let data := _load_data f in
  let count := Z.of_nat (length data) in
  (count, _save_data []).

End FileBasedCalculationRepository.

(** A [dict] in insertion order: assigning to a key that is present
    keeps its place, a new key goes last. *)
Module PyDict.

Definition t (V : Type) : Type := list (pyval * V).

Fixpoint get {V} (d : t V) (k : pyval) : option V :=
  match d with
  | [] => None
  | (k', v) :: d' => if eq_ k' k then Some v else get d' k
  end.

(** [d[k] = v] *)
Fixpoint setitem {V} (d : t V) (k : pyval) (v : V) : t V :=
  match d with
  | [] => [(k, v)]
  | (k', v') :: d' =>
      if eq_ k' k then (k', v) :: d' else (k', v') :: setitem d' k v
  end.

(** [del d[k]], for a key that is present. *)
Fixpoint delitem {V} (d : t V) (k : pyval) : t V :=
  match d with
  | [] => []
  | (k', v') :: d' => if eq_ k' k then d' else (k', v') :: delitem d' k
  end.

(** [k in d] *)
Definition contains {V} (d : t V) (k : pyval) : bool :=
  match get d k with
  | Some _ => true
  | None => false
  end.

Definition keys {V} (d : t V) : list pyval := d.*1.
Definition values {V} (d : t V) : list V := d.*2.

End PyDict.

Module InMemoryCalculationRepository.

Record t := { _storage : PyDict.t AgeCalculationResult.t }.

Definition new : t := {| _storage := [] |}.

Definition save (self : t) (result : AgeCalculationResult.t) : pyval * t :=
  (AgeCalculationResult.id result,
   {| _storage :=
        PyDict.setitem (_storage self) (AgeCalculationResult.id result) result |}).

Definition get_by_id (self : t) (id : pyval) : option AgeCalculationResult.t :=
  PyDict.get (_storage self) id.

Definition get_all (self : t) : list AgeCalculationResult.t :=
  PyDict.values (_storage self).

Definition delete (self : t) (id : pyval) : bool * t :=
  if PyDict.contains (_storage self) id then
    (true, {| _storage := PyDict.delitem (_storage self) id |})
  else (false, self).

Definition clear_all (self : t) : Z * t :=
  let count := Z.of_nat (length (_storage self)) in
  (count, {| _storage := [] |}).

Definition get_count (self : t) : Z := Z.of_nat (length (_storage self)).

End InMemoryCalculationRepository.

(** ** presentation.view_models *)

Inductive ViewState := IDLE | LOADING | SUCCESS | ERROR.

Global Instance ViewState_eq_dec : EqDecision ViewState.
Proof. solve_decision. Defined.

Module InputViewModel.

Record t := { name : str; age : str }.

Definition new : t := {| name := []; age := [] |}.

Definition clear (self : t) : t := {| name := []; age := [] |}.

End InputViewModel.

Module ResultViewModel.

Record t := {
  name : str;
  years : pyval;
  months : pyval;
  days : pyval;
  weeks : pyval;
  hours : pyval;
  minutes : pyval;
  birth_year : pyval;
  current_year : pyval
}.

End ResultViewModel.

Module ErrorViewModel.

Record t := {
  message : str;
  field_name : option str;
  error_code : option str
}.

Definition new : t := {| message := []; field_name := None; error_code := None |}.

Definition has_error (self : t) : bool := truthy (PyStr (message self)).

Definition clear (self : t) : t :=
  {| message := []; field_name := None; error_code := None |}.

End ErrorViewModel.

Module MainViewModel.

Record t := {
  input : InputViewModel.t;
  result : option ResultViewModel.t;
  error : ErrorViewModel.t;
  state : ViewState;
  calculation_history : list ResultViewModel.t
}.

Definition new : t :=
  {| input := InputViewModel.new;
     result := None;
     error := ErrorViewModel.new;
     state := IDLE;
     calculation_history := [] |}.

Definition set_loading (self : t) : t :=
  {| input := input self;
     result := result self;
     error := ErrorViewModel.clear (error self);
     state := LOADING;
     calculation_history := calculation_history self |}.

Definition set_success (self : t) (result : ResultViewModel.t) : t :=
  {| input := input self;
     result := Some result;
     error := ErrorViewModel.clear (error self);
     state := SUCCESS;
     calculation_history := calculation_history self |}.

Definition set_error (self : t) (message : str) (field_name : option str) : t :=
  {| input := input self;
     result := None;
     error :=
       {| ErrorViewModel.message := message;
          ErrorViewModel.field_name := field_name;
          ErrorViewModel.error_code := ErrorViewModel.error_code (error self) |};
     state := ERROR;
     calculation_history := calculation_history self |}.

Definition reset (self : t) : t :=
  {| input := InputViewModel.clear (input self);
     result := None;
     error := ErrorViewModel.clear (error self);
     state := IDLE;
     calculation_history := calculation_history self |}.

Definition is_loading (self : t) : bool := bool_decide (state self = LOADING).

Definition has_result (self : t) : bool :=
  match result self with
  | Some _ => bool_decide (state self = SUCCESS)
  | None => false
  end.

Definition has_error (self : t) : bool := ErrorViewModel.has_error (error self).

End MainViewModel.

(** ** presentation.controllers *)

Module MainController.

(** [x.f if x else 0] on an optional value object. *)
Definition field_or_zero {A} (x : option A) (f : A → pyval) : pyval :=
  match x with
  | Some a => f a
  | None => PyInt 0
  end.

Definition _map_to_view_model (title : str → str) (result : AgeCalculationResult.t)
    : ResultViewModel.t :=
  {| ResultViewModel.name :=
       match AgeCalculationResult.name result with
       | Some n => PersonName.get_display_name title n
       | None => []
       end;
     ResultViewModel.years :=
       field_or_zero (AgeCalculationResult.age_years result) (λ a, PyInt (Age.years a));
     ResultViewModel.months :=
       field_or_zero (AgeCalculationResult.age_months result) AgeInMonths.months;
     ResultViewModel.days :=
       field_or_zero (AgeCalculationResult.age_days result) AgeInDays.days;
     ResultViewModel.weeks :=
       field_or_zero (AgeCalculationResult.age_weeks result) AgeInWeeks.weeks;
     ResultViewModel.hours :=
       field_or_zero (AgeCalculationResult.age_hours result) AgeInHours.hours;
     ResultViewModel.minutes :=
       field_or_zero (AgeCalculationResult.age_minutes result) AgeInMinutes.minutes;
     ResultViewModel.birth_year := or_ (AgeCalculationResult.birth_year result) (PyInt 0);
     ResultViewModel.current_year :=
       or_ (AgeCalculationResult.current_year result) (PyInt 0) |}.

End MainController.

(** ** Assembling an engine *)

(** A date source that reports the given date. *)
Definition fixed_date (now : datetime) (year month day : Z) : IDateTimeProvider :=
  {| get_current_time := now;
     get_current_year := year;
     get_current_month := month;
     get_current_day := day |}.

(** The engine with the standard calendar, as the factory wires it. *)
Definition engine (dp : IDateTimeProvider) (cfg : ValidationConfig.t)
    : AgeCalculatorServiceImpl.t :=
  {| AgeCalculatorServiceImpl._datetime_provider := dp;
     AgeCalculatorServiceImpl._leap_year_calculator := StandardLeapYearCalculator.new;
     AgeCalculatorServiceImpl._month_days_calculator := StandardMonthDaysCalculator.new;
     AgeCalculatorServiceImpl._validation_service :=
       {| InputValidationService._config := cfg |} |}.

(** ** Reference formulas, in the words of the specification *)

Definition Zsum (l : list Z) : Z := foldr Z.add 0 l.

(** Jan 31, Feb 28 or 29, Mar 31, Apr 30, May 31, Jun 30, Jul 31, Aug 31,
    Sep 30, Oct 31, Nov 30, Dec 31. *)
Definition month_table (leap : bool) : list Z :=
  [31; if leap then 29 else 28; 31; 30; 31; 30; 31; 31; 30; 31; 30; 31].

Definition table_days (month : Z) (leap : bool) : Z :=
  nth (Z.to_nat (month - 1)) (month_table leap) 0.

(** The day counts of months 1 to month - 1, added up. *)
Definition table_days_before (month : Z) (leap : bool) : Z :=
  Zsum ((λ m, table_days m leap) <$> seqZ 1 (month - 1)).

(** The days of the years birth_year, ..., current_year - 1. *)
Definition full_year_days (age_years current_year : Z) : Z :=
  Zsum (StandardLeapYearCalculator.get_days_in_year
          <$> seqZ (current_year - age_years) age_years).

Definition valid_month (month : Z) : Prop := 1 ≤ month ≤ 12.

(** Non-empty after trimming white space. *)
Definition nonblank (name : str) : Prop := Str.strip name ≠ [].

(** Both boundary checks of [calculate_age] return. *)
Definition accepted (cfg : ValidationConfig.t) (name : str) (age_years : Z) : Prop :=
  InputValidationService.validate_name_with_exception
    {| InputValidationService._config := cfg |} name = Ok ()
  ∧ InputValidationService.validate_age_with_exception
      {| InputValidationService._config := cfg |} age_years = Ok ().

(** The day total in the words of the specification: the days of the
    full years, the days before the current month, the day of the month. *)
Definition total_days_formula (dp : IDateTimeProvider) (age_years : Z) : Z :=
  full_year_days age_years (@get_current_year dp)
  + table_days_before (@get_current_month dp)
      (StandardLeapYearCalculator.is_leap_year (@get_current_year dp))
  + @get_current_day dp.

(** The result with the derived units of the specification, for a day
    total [D]. *)
Definition result_of (dp : IDateTimeProvider) (w : ambient) (name : str)
    (age_years D : Z) : AgeCalculationResult.t :=
  {| AgeCalculationResult.id := PyStr (uuid4 w);
     AgeCalculationResult.name := Some {| PersonName.value := name |};
     AgeCalculationResult.age_years := Some {| Age.years := age_years |};
     AgeCalculationResult.age_months :=
       Some {| AgeInMonths.months := PyInt (age_years * 12 + @get_current_month dp) |};
     AgeCalculationResult.age_days := Some {| AgeInDays.days := PyInt D |};
     AgeCalculationResult.age_weeks :=
       Some {| AgeInWeeks.weeks := PyInt (D `div` 7) |};
     AgeCalculationResult.age_hours :=
       Some {| AgeInHours.hours := PyInt (D * 24) |};
     AgeCalculationResult.age_minutes :=
       Some {| AgeInMinutes.minutes := PyInt (D * 24 * 60) |};
     AgeCalculationResult.calculation_timestamp := CalculationTimestamp.now w;
     AgeCalculationResult.birth_year := PyInt (@get_current_year dp - age_years);
     AgeCalculationResult.current_year := PyInt (@get_current_year dp) |}.

(** Both ranges of a configuration are in order. *)
Definition config_ranges_ok (cfg : ValidationConfig.t) : Prop :=
  ValidationConfig.min_age cfg ≤ ValidationConfig.max_age cfg
  ∧ ValidationConfig.min_name_length cfg ≤ ValidationConfig.max_name_length cfg.

(** The numeric fields of a result. *)
Definition numeric_fields (r : AgeCalculationResult.t) :=
  (AgeCalculationResult.age_years r, AgeCalculationResult.age_months r,
   AgeCalculationResult.age_days r, AgeCalculationResult.age_weeks r,
   AgeCalculationResult.age_hours r, AgeCalculationResult.age_minutes r,
   AgeCalculationResult.birth_year r, AgeCalculationResult.current_year r).

(** A name that is present is not blank and an age that is present is
    not negative. *)
Definition result_invariant (r : AgeCalculationResult.t) : Prop :=
  (∀ p, AgeCalculationResult.name r = Some p → nonblank (PersonName.value p))
  ∧ (∀ a, AgeCalculationResult.age_years r = Some a → 0 ≤ Age.years a).

(** What comes back for a field whose stored value is [v]: the field,
    or nothing when [v] counts as false. *)
Definition kept {A} (v : pyval) (x : A) : option A :=
  if truthy v then Some x else None.

(** An engine result after [to_dict] and [_dict_to_result]. *)
Definition round_trip_of (dp : IDateTimeProvider) (w w' : ambient) (name : str)
    (age_years D : Z) : AgeCalculationResult.t :=
  let months := age_years * 12 + @get_current_month dp in
  {| AgeCalculationResult.id := PyStr (uuid4 w);
     AgeCalculationResult.name := Some {| PersonName.value := name |};
     AgeCalculationResult.age_years :=
       kept (PyInt age_years) {| Age.years := age_years |};
     AgeCalculationResult.age_months :=
       kept (PyInt months) {| AgeInMonths.months := PyInt months |};
     AgeCalculationResult.age_days :=
       kept (PyInt D) {| AgeInDays.days := PyInt D |};
     AgeCalculationResult.age_weeks :=
       kept (PyInt (D `div` 7)) {| AgeInWeeks.weeks := PyInt (D `div` 7) |};
     AgeCalculationResult.age_hours :=
       kept (PyInt (D * 24)) {| AgeInHours.hours := PyInt (D * 24) |};
     AgeCalculationResult.age_minutes :=
       kept (PyInt (D * 24 * 60)) {| AgeInMinutes.minutes := PyInt (D * 24 * 60) |};
     AgeCalculationResult.calculation_timestamp := CalculationTimestamp.now w';
     AgeCalculationResult.birth_year := PyInt (@get_current_year dp - age_years);
     AgeCalculationResult.current_year := PyInt (@get_current_year dp) |}.

(** The calls a controller makes on the main view model. *)
Inductive view_call :=
| SetLoading
| SetSuccess (result : ResultViewModel.t)
| SetError (message : str) (field_name : option str)
| ResetView.

Definition view_step (self : MainViewModel.t) (c : view_call) : MainViewModel.t :=
  match c with
  | SetLoading => MainViewModel.set_loading self
  | SetSuccess r => MainViewModel.set_success self r
  | SetError m f => MainViewModel.set_error self m f
  | ResetView => MainViewModel.reset self
  end.

(** A fresh view model after a sequence of calls. *)
Definition view_after (cs : list view_call) : MainViewModel.t :=
  foldl view_step MainViewModel.new cs.

(** The calls made on an in-memory repository. *)
Inductive repo_call :=
| Save (result : AgeCalculationResult.t)
| Delete (id : pyval)
| ClearAll.

Definition repo_step (self : InMemoryCalculationRepository.t) (c : repo_call)
    : InMemoryCalculationRepository.t :=
  match c with
  | Save r => (InMemoryCalculationRepository.save self r).2
  | Delete id => (InMemoryCalculationRepository.delete self id).2
  | ClearAll => (InMemoryCalculationRepository.clear_all self).2
  end.

(** A fresh repository after a sequence of calls. *)
Definition repo_after (cs : list repo_call) : InMemoryCalculationRepository.t :=
  foldl repo_step InMemoryCalculationRepository.new cs.

(** The calls made on a file repository. *)
Definition file_step (f : FileBasedCalculationRepository.file) (c : repo_call)
    : FileBasedCalculationRepository.file :=
  match c with
  | Save r => (FileBasedCalculationRepository.save f r).2
  | Delete id => (FileBasedCalculationRepository.delete f id).2
  | ClearAll => (FileBasedCalculationRepository.clear_all f).2
  end.

(** The identifiers stored in a file, in order. *)
Definition file_ids (f : FileBasedCalculationRepository.file) : list pyval :=
  (λ item, FileBasedCalculationRepository.get item "id" PyNone)
    <$> FileBasedCalculationRepository._load_data f.

(** In a repository: no identifier is stored twice, and every result
    is stored under its own identifier. *)
Definition repo_wf (self : InMemoryCalculationRepository.t) : Prop :=
  NoDup (PyDict.keys (InMemoryCalculationRepository._storage self))
  ∧ ∀ k r, (k, r) ∈ InMemoryCalculationRepository._storage self →
           AgeCalculationResult.id r = k.

(** The records of a file after one more record [rd] is stored under
    [id]: in the place of the first record with that identifier, or at
    the end. *)
Definition stored (id : pyval) (rd : gmap string pyval)
    (data : list (gmap string pyval)) : list (gmap string pyval) :=
  match FileBasedCalculationRepository.first_index
          (FileBasedCalculationRepository.has_id id) data with
  | Some i => <[i := rd]> data
  | None => data ++ [rd]
  end.

(** * Properties *)

(** ** Loops that add up *)

Lemma Zsum_cons (x : Z) (l : list Z) : Zsum (x :: l) = x + Zsum l.
Proof. reflexivity. Qed.

(** A loop whose body cannot raise returns the running total. *)
Lemma for_total {A} (f : A → Z) (xs : list A) (s : Z) :
  for_ xs (λ x total, Ok (total + f x)) s = Ok (s + Zsum (f <$> xs)).
Proof.
  revert s. induction xs as [|x xs IH]; intros s; simpl.
  - f_equal. unfold Zsum. simpl. lia.
  - rewrite IH. f_equal. unfold Zsum. simpl. by rewrite Z.add_assoc.
Qed.

(** The same when each call of the body returns on the elements met. *)
Lemma for_total_calls {A} (g : A → result Z) (f : A → Z) (xs : list A) (s : Z) :
  Forall (λ x, g x = Ok (f x)) xs →
  for_ xs (λ x total, d ← g x; Ok (total + d)) s = Ok (s + Zsum (f <$> xs)).
Proof.
  intros Hxs. revert s. induction Hxs as [|x xs Hx _ IH]; intros s; simpl.
  - f_equal. unfold Zsum. simpl. lia.
  - rewrite Hx. simpl. rewrite IH. f_equal. unfold Zsum. simpl.
    by rewrite Z.add_assoc.
Qed.

(** ** The calendar *)

Lemma month_cases (month : Z) :
  valid_month month →
  month = 1 ∨ month = 2 ∨ month = 3 ∨ month = 4 ∨ month = 5 ∨ month = 6
  ∨ month = 7 ∨ month = 8 ∨ month = 9 ∨ month = 10 ∨ month = 11 ∨ month = 12.
Proof. unfold valid_month. lia. Qed.

Ltac each_month H := apply month_cases in H; destruct_or! H; subst.

Lemma month_guard_valid (month : Z) :
  valid_month month → (month <? 1) || (month >? 12) = false.
Proof. unfold valid_month. intros H. apply orb_false_iff. lia. Qed.

Lemma month_guard_invalid (month : Z) :
  ¬ valid_month month → (month <? 1) || (month >? 12) = true.
Proof. unfold valid_month. intros H. apply orb_true_iff. lia. Qed.

Lemma get_days_in_month_valid (month : Z) (leap : bool) :
  valid_month month →
  StandardMonthDaysCalculator.get_days_in_month month leap
  = Ok (table_days month leap).
Proof. intros H. each_month H; destruct leap; reflexivity. Qed.

Lemma get_days_up_to_month_valid (month : Z) (leap : bool) :
  valid_month month →
  StandardMonthDaysCalculator.get_days_up_to_month month leap
  = Ok (table_days_before month leap).
Proof.
  intros H. unfold StandardMonthDaysCalculator.get_days_up_to_month.
  rewrite (month_guard_valid _ H).
  unfold range, table_days_before.
  rewrite (for_total_calls _ (λ m, table_days m leap)); [done|].
  apply Forall_seqZ. intros m Hm. apply get_days_in_month_valid.
  unfold valid_month in *. lia.
Qed.

(** C5: for every integer year, also zero and negative ones,
    [is_leap_year] is true exactly when the year is divisible by 4 and
    either not divisible by 100 or divisible by 400; [get_days_in_year]
    is 366 exactly for leap years and 365 otherwise. Both are total
    functions: no integer makes them raise. *)
Theorem C5_leap_year_rule (y : Z) :
  (StandardLeapYearCalculator.is_leap_year y = true
   ↔ (4 | y) ∧ (¬ (100 | y) ∨ (400 | y)))
  ∧ (StandardLeapYearCalculator.get_days_in_year y = 366
     ↔ StandardLeapYearCalculator.is_leap_year y = true)
  ∧ StandardLeapYearCalculator.get_days_in_year y
    = (if StandardLeapYearCalculator.is_leap_year y then 366 else 365)
  ∧ @is_leap_year StandardLeapYearCalculator.new y
    = StandardLeapYearCalculator.is_leap_year y
  ∧ @get_days_in_year StandardLeapYearCalculator.new y
    = StandardLeapYearCalculator.get_days_in_year y.
Proof.
  split_and!; try reflexivity.
  - unfold StandardLeapYearCalculator.is_leap_year, isleap.
    rewrite andb_true_iff, orb_true_iff, negb_true_iff.
    rewrite !Z.eqb_eq, Z.eqb_neq.
    rewrite <- !Z.mod_divide by lia. tauto.
  - unfold StandardLeapYearCalculator.get_days_in_year.
    destruct (StandardLeapYearCalculator.is_leap_year y); split; congruence.
Qed.

(** C6: for a month in [1,12] and either leap flag, [get_days_in_month]
    returns the entry of the fixed table and [get_days_up_to_month] the
    sum of the entries of the months before it (0 for January, 60 and 59
    for March with and without a leap day); each of the two raises the
    invalid-month [ValueError] exactly when the month is outside [1,12]. *)
Theorem C6_month_day_table (month : Z) (leap : bool) :
  (valid_month month →
     StandardMonthDaysCalculator.get_days_in_month month leap
     = Ok (table_days month leap)
     ∧ StandardMonthDaysCalculator.get_days_up_to_month month leap
       = Ok (table_days_before month leap))
  ∧ (¬ valid_month month →
     StandardMonthDaysCalculator.get_days_in_month month leap
     = Raise (StandardMonthDaysCalculator.invalid_month month)
     ∧ StandardMonthDaysCalculator.get_days_up_to_month month leap
       = Raise (StandardMonthDaysCalculator.invalid_month month))
  ∧ (raises (StandardMonthDaysCalculator.get_days_in_month month leap)
     ↔ ¬ valid_month month)
  ∧ (raises (StandardMonthDaysCalculator.get_days_up_to_month month leap)
     ↔ ¬ valid_month month)
  ∧ StandardMonthDaysCalculator.get_days_up_to_month 1 leap = Ok 0
  ∧ StandardMonthDaysCalculator.get_days_up_to_month 3 true = Ok 60
  ∧ StandardMonthDaysCalculator.get_days_up_to_month 3 false = Ok 59.
Proof.
  assert (Hin : ¬ valid_month month →
     StandardMonthDaysCalculator.get_days_in_month month leap
     = Raise (StandardMonthDaysCalculator.invalid_month month)).
  { intros H. unfold StandardMonthDaysCalculator.get_days_in_month.
    by rewrite (month_guard_invalid _ H). }
  assert (Hup : ¬ valid_month month →
     StandardMonthDaysCalculator.get_days_up_to_month month leap
     = Raise (StandardMonthDaysCalculator.invalid_month month)).
  { intros H. unfold StandardMonthDaysCalculator.get_days_up_to_month.
    by rewrite (month_guard_invalid _ H). }
  assert (Hdec : valid_month month ∨ ¬ valid_month month)
    by (unfold valid_month; lia).
  split_and!; try reflexivity.
  - intros H. split.
    + by apply get_days_in_month_valid.
    + by apply get_days_up_to_month_valid.
  - intros H. split; auto.
  - split.
    + intros [e He] H. rewrite get_days_in_month_valid in He by done. discriminate.
    + intros H. eexists. by apply Hin.
  - split.
    + intros [e He] H. rewrite get_days_up_to_month_valid in He by done. discriminate.
    + intros H. eexists. by apply Hup.
Qed.

(** The table itself, entry by entry, and the three quoted sums. *)
Example table_entries :
  (λ m, table_days m false) <$> seqZ 1 12
  = [31; 28; 31; 30; 31; 30; 31; 31; 30; 31; 30; 31]
  ∧ (λ m, table_days m true) <$> seqZ 1 12
    = [31; 29; 31; 30; 31; 30; 31; 31; 30; 31; 30; 31]
  ∧ table_days_before 1 true = 0 ∧ table_days_before 1 false = 0
  ∧ table_days_before 3 true = 60 ∧ table_days_before 3 false = 59.
Proof. by vm_compute. Qed.

(** C6 at March of a leap year and at month 13. *)
Lemma C6_month_day_table_witness :
  (StandardMonthDaysCalculator.get_days_in_month 3 true = Ok 31
   ∧ StandardMonthDaysCalculator.get_days_up_to_month 3 true = Ok 60)
  ∧ StandardMonthDaysCalculator.get_days_in_month 13 true
    = Raise (StandardMonthDaysCalculator.invalid_month 13).
Proof.
  split.
  - apply (C6_month_day_table 3 true). unfold valid_month. lia.
  - apply (C6_month_day_table 13 true). unfold valid_month. lia.
Defined.

(** ** Blank names *)

Lemma not_str_true (s : str) : not_ (PyStr s) = true ↔ s = [].
Proof.
  unfold not_, truthy. rewrite negb_involutive. apply bool_decide_eq_true.
Qed.

(** The test [not name or not name.strip()] is the test "blank". *)
Lemma blank_test_true (name : str) :
  not_ (PyStr name) || not_ (PyStr (Str.strip name)) = true ↔ Str.strip name = [].
Proof.
  rewrite orb_true_iff, !not_str_true. split; [|tauto].
  intros [-> | H]; [reflexivity | exact H].
Qed.

Lemma blank_test_false (name : str) :
  not_ (PyStr name) || not_ (PyStr (Str.strip name)) = false ↔ nonblank name.
Proof.
  unfold nonblank. rewrite <- blank_test_true.
  destruct (not_ (PyStr name) || not_ (PyStr (Str.strip name))); split; congruence.
Qed.

Lemma lstrip_nil (s : str) : Str.lstrip s = [] ↔ forallb Str.isspace s = true.
Proof.
  induction s as [|c s IH]; simpl; [done|].
  destruct (Str.isspace c); simpl; [exact IH | split; discriminate].
Qed.

(** A name is blank exactly when all its characters are white space. *)
Lemma strip_nil (s : str) : Str.strip s = [] ↔ forallb Str.isspace s = true.
Proof.
  unfold Str.strip, Str.rstrip. rewrite <- lstrip_nil.
  split.
  - intros H. apply (f_equal reverse) in H. rewrite reverse_involutive in H.
    change (reverse []) with (@nil N) in H.
    destruct (Str.lstrip s) as [|c l] eqn:E; [done|].
    apply lstrip_nil in H. rewrite forallb_forall in H.
    assert (Hc : Str.isspace c = true).
    { apply H. apply list_elem_of_In. rewrite elem_of_reverse. left. }
    clear H. exfalso. induction s as [|d s IH]; simpl in E; [done|].
    destruct (Str.isspace d) eqn:Ed; [auto|]. congruence.
  - intros ->. reflexivity.
Qed.

(** ** Accepted inputs *)

Lemma accepted_name_nonblank cfg name :
  InputValidationService.validate_name_with_exception
    {| InputValidationService._config := cfg |} name = Ok () →
  nonblank name.
Proof.
  unfold InputValidationService.validate_name_with_exception. intros H.
  apply blank_test_false.
  destruct (not_ (PyStr name) || not_ (PyStr (Str.strip name))); [discriminate|done].
Qed.

Lemma accepted_age_bounds cfg age_years :
  InputValidationService.validate_age_with_exception
    {| InputValidationService._config := cfg |} age_years = Ok ()
  ↔ ValidationConfig.min_age cfg ≤ age_years ≤ ValidationConfig.max_age cfg.
Proof.
  unfold InputValidationService.validate_age_with_exception. simpl.
  destruct (_ || _) eqn:E.
  - apply orb_true_iff in E. split; [discriminate | lia].
  - apply orb_false_iff in E. split; [lia | done].
Qed.

Lemma PersonName_new_nonblank (name : str) :
  nonblank name → PersonName.new (PyStr name) = Ok {| PersonName.value := name |}.
Proof.
  intros H. apply blank_test_false in H. unfold PersonName.new. by rewrite H.
Qed.

Lemma Age_new_nonneg (n : Z) :
  0 ≤ n → Age.new (PyInt n) = Ok {| Age.years := n |}.
Proof.
  intros H. unfold Age.new. destruct (n <? 0) eqn:E; [lia | done].
Qed.

(** ** The engine *)

#[local] Arguments PersonName.new : simpl never.
#[local] Arguments Age.new : simpl never.

Section engine.
Context (dp : IDateTimeProvider) (cfg : ValidationConfig.t).

Abbreviation year := (@get_current_year dp).
Abbreviation month := (@get_current_month dp).
Abbreviation day := (@get_current_day dp).

Lemma total_days_standard (age_years y m d : Z) :
  valid_month m →
  AgeCalculatorServiceImpl._calculate_total_days (engine dp cfg) age_years y m d
  = Ok (full_year_days age_years y
        + table_days_before m (StandardLeapYearCalculator.is_leap_year y) + d).
Proof.
  intros Hm. unfold AgeCalculatorServiceImpl._calculate_total_days. simpl.
  rewrite for_total. simpl.
  rewrite (for_total_calls _
             (λ k, table_days k (StandardLeapYearCalculator.is_leap_year y))).
  - simpl. unfold full_year_days, table_days_before, range.
    replace (y - (y - age_years)) with age_years by lia.
    by rewrite Z.add_0_l.
  - apply Forall_seqZ. intros k Hk. apply get_days_in_month_valid.
    unfold valid_month in *. lia.
Qed.

Lemma calculate_age_accepted (w : ambient) (name : str) (age_years : Z) :
  accepted cfg name age_years → 0 ≤ age_years → valid_month month →
  AgeCalculatorServiceImpl.calculate_age (engine dp cfg) w name age_years
  = Ok (result_of dp w name age_years (total_days_formula dp age_years)).
Proof.
  intros [Hname Hage] Hpos Hm.
  unfold AgeCalculatorServiceImpl.calculate_age. simpl.
  rewrite Hname, Hage. simpl.
  rewrite total_days_standard by done. simpl.
  rewrite PersonName_new_nonblank by eauto using accepted_name_nonblank. simpl.
  rewrite Age_new_nonneg by done. reflexivity.
Qed.

Lemma full_year_days_succ (a y : Z) :
  0 ≤ a →
  full_year_days (a + 1) y
  = StandardLeapYearCalculator.get_days_in_year (y - a - 1) + full_year_days a y.
Proof.
  intros Ha. unfold full_year_days.
  rewrite (seqZ_cons (y - (a + 1))) by lia.
  rewrite fmap_cons, Zsum_cons.
  replace (Z.succ (y - (a + 1))) with (y - a) by lia.
  replace (Z.pred (a + 1)) with a by lia.
  by replace (y - (a + 1)) with (y - a - 1) by lia.
Qed.

Lemma days_in_year_positive (y : Z) :
  365 ≤ StandardLeapYearCalculator.get_days_in_year y ≤ 366.
Proof.
  unfold StandardLeapYearCalculator.get_days_in_year.
  destruct (StandardLeapYearCalculator.is_leap_year y); lia.
Qed.

End engine.

Lemma validate_bool_accepted cfg name age_years :
  InputValidationService.validate_name
    {| InputValidationService._config := cfg |} name = true →
  InputValidationService.validate_age
    {| InputValidationService._config := cfg |} age_years = true →
  accepted cfg name age_years.
Proof.
  unfold InputValidationService.validate_name, InputValidationService.validate_age.
  simpl. intros Hn Ha. split.
  - unfold InputValidationService.validate_name_with_exception. simpl.
    destruct (not_ (PyStr name) || not_ (PyStr (Str.strip name))); [done|].
    destruct (len name <? _); [done|].
    by destruct (len name >? _).
  - apply accepted_age_bounds. apply andb_true_iff in Ha. lia.
Qed.

(** A result comes only out of accepted inputs, whatever the calendar
    and the date source are. *)
Lemma calculate_age_returns_accepted (self : AgeCalculatorServiceImpl.t) w name age_years r :
  AgeCalculatorServiceImpl.calculate_age self w name age_years = Ok r →
  accepted
    (InputValidationService._config
       (AgeCalculatorServiceImpl._validation_service self)) name age_years.
Proof.
  unfold AgeCalculatorServiceImpl.calculate_age, accepted.
  destruct (AgeCalculatorServiceImpl._validation_service self) as [cfg]. simpl.
  destruct (InputValidationService.validate_name_with_exception _ name)
    as [[]|e]; [|discriminate]. simpl.
  destruct (InputValidationService.validate_age_with_exception _ age_years)
    as [[]|e]; [|discriminate]. done.
Qed.

(** C1: for an age of at least 0 and a current date whose month is in
    [1,12], the day total of the engine is the sum of the days of the
    years from the birth year to the year before the current one, plus
    the days before the current month under the leap flag of the current
    year, plus the day of the month; the result of [calculate_age] holds
    months = age * 12 + month, weeks = D div 7, hours = D * 24 and
    minutes = hours * 60; [calculate_days_lived] and
    [calculate_months_lived] follow the same two formulas. *)
Theorem C1_total_days_and_units (now : datetime) (cfg : ValidationConfig.t)
    (w : ambient) (name : str) (age_years year month day : Z) :
  0 ≤ age_years → valid_month month →
  let dp := fixed_date now year month day in
  let leap := StandardLeapYearCalculator.is_leap_year year in
  let D := full_year_days age_years year + table_days_before month leap + day in
  AgeCalculatorServiceImpl._calculate_total_days (engine dp cfg)
    age_years year month day = Ok D
  ∧ StandardMonthDaysCalculator.get_days_up_to_month month leap
    = Ok (table_days_before month leap)
  ∧ full_year_days 0 year = 0
  ∧ AgeCalculatorServiceImpl.calculate_days_lived (engine dp cfg) age_years = Ok D
  ∧ AgeCalculatorServiceImpl.calculate_months_lived (engine dp cfg) age_years
    = age_years * 12 + month
  ∧ (accepted cfg name age_years →
     AgeCalculatorServiceImpl.calculate_age (engine dp cfg) w name age_years
     = Ok (result_of dp w name age_years D))
  ∧ (∀ r, AgeCalculatorServiceImpl.calculate_age (engine dp cfg) w name age_years
          = Ok r →
       AgeCalculationResult.age_months r
       = Some {| AgeInMonths.months := PyInt (age_years * 12 + month) |}
       ∧ AgeCalculationResult.age_days r = Some {| AgeInDays.days := PyInt D |}
       ∧ AgeCalculationResult.age_weeks r
         = Some {| AgeInWeeks.weeks := PyInt (D `div` 7) |}
       ∧ AgeCalculationResult.age_hours r
         = Some {| AgeInHours.hours := PyInt (D * 24) |}
       ∧ AgeCalculationResult.age_minutes r
         = Some {| AgeInMinutes.minutes := PyInt (D * 24 * 60) |}).
Proof.
  intros Hage Hm dp leap D.
  assert (Hcalc : accepted cfg name age_years →
     AgeCalculatorServiceImpl.calculate_age (engine dp cfg) w name age_years
     = Ok (result_of dp w name age_years D)).
  { intros Hacc. by apply (calculate_age_accepted dp cfg). }
  split_and!; try done.
  - by apply total_days_standard.
  - by apply get_days_up_to_month_valid.
  - by apply (total_days_standard dp cfg).
  - intros r Hr.
    pose proof (calculate_age_returns_accepted _ _ _ _ _ Hr) as Hacc.
    rewrite (Hcalc Hacc) in Hr. injection Hr as <-. done.
Qed.

(** C1 on 2024-03-15 for "Ada", aged 30: 11,032 days. *)
Lemma C1_total_days_and_units_witness :
  AgeCalculatorServiceImpl._calculate_total_days
    (engine (fixed_date (Build_datetime 2024 3 15 9 30 0 0) 2024 3 15)
       ValidationConfig.default)
    30 2024 3 15 = Ok 11032.
Proof.
  refine (proj1 (C1_total_days_and_units (Build_datetime 2024 3 15 9 30 0 0)
                   ValidationConfig.default
                   (Build_ambient (py_str "0-0") (Build_datetime 2024 3 15 9 30 0 0))
                   (py_str "Ada") 30 2024 3 15 _ _)).
  - lia.
  - unfold valid_month. lia.
Defined.

(** The worked scenario of the specification, run through the engine. *)
Example ada_2024_03_15 :
  let now := Build_datetime 2024 3 15 9 30 0 0 in
  let w := Build_ambient (py_str "0-0") now in
  AgeCalculatorServiceImpl.calculate_age
    (engine (fixed_date now 2024 3 15) ValidationConfig.default) w (py_str "Ada") 30
  = Ok {| AgeCalculationResult.id := PyStr (py_str "0-0");
          AgeCalculationResult.name := Some {| PersonName.value := py_str "Ada" |};
          AgeCalculationResult.age_years := Some {| Age.years := 30 |};
          AgeCalculationResult.age_months := Some {| AgeInMonths.months := PyInt 363 |};
          AgeCalculationResult.age_days := Some {| AgeInDays.days := PyInt 11032 |};
          AgeCalculationResult.age_weeks := Some {| AgeInWeeks.weeks := PyInt 1576 |};
          AgeCalculationResult.age_hours := Some {| AgeInHours.hours := PyInt 264768 |};
          AgeCalculationResult.age_minutes :=
            Some {| AgeInMinutes.minutes := PyInt 15886080 |};
          AgeCalculationResult.calculation_timestamp :=
            {| CalculationTimestamp.timestamp := now |};
          AgeCalculationResult.birth_year := PyInt 1994;
          AgeCalculationResult.current_year := PyInt 2024 |}.
Proof. by vm_compute. Qed.

(** C8: for a fixed current date, the days lived grow strictly with the
    age: from every age of at least 0 to the next, the total rises. *)
Theorem C8_days_lived_strictly_increasing (now : datetime)
    (cfg : ValidationConfig.t) (year month day a : Z) :
  valid_month month → 0 ≤ a →
  let svc := engine (fixed_date now year month day) cfg in
  ∃ d d',
    AgeCalculatorServiceImpl.calculate_days_lived svc a = Ok d
    ∧ AgeCalculatorServiceImpl.calculate_days_lived svc (a + 1) = Ok d'
    ∧ d < d'.
Proof.
  intros Hm Ha svc. unfold svc, AgeCalculatorServiceImpl.calculate_days_lived.
  simpl. rewrite !total_days_standard by done.
  do 2 eexists. split_and!; [done..|].
  rewrite full_year_days_succ by done.
  pose proof (days_in_year_positive (year - a - 1)). lia.
Qed.

(** C8 on 2024-03-15, from age 30 to age 31. *)
Lemma C8_days_lived_strictly_increasing_witness :
  ∃ d d',
    AgeCalculatorServiceImpl.calculate_days_lived
      (engine (fixed_date (Build_datetime 2024 3 15 9 30 0 0) 2024 3 15)
         ValidationConfig.default) 30 = Ok d
    ∧ AgeCalculatorServiceImpl.calculate_days_lived
        (engine (fixed_date (Build_datetime 2024 3 15 9 30 0 0) 2024 3 15)
           ValidationConfig.default) (30 + 1) = Ok d'
    ∧ d < d'.
Proof.
  apply (C8_days_lived_strictly_increasing (Build_datetime 2024 3 15 9 30 0 0)
           ValidationConfig.default 2024 3 15 30).
  - unfold valid_month. lia.
  - lia.
Defined.

(** ** Validation at the boundary *)

(** C3, as stated, fails: a configuration with bounds -5..150 has its
    ranges in order and its validator accepts the age -1, yet
    [calculate_age] raises, because [Age] refuses negative years. *)
Lemma C3_counterexample :
  ¬ (∀ (dp : IDateTimeProvider) (cfg : ValidationConfig.t) (w : ambient)
       (name : str) (age_years : Z),
       config_ranges_ok cfg → valid_month (@get_current_month dp) →
       accepted cfg name age_years →
       returns (AgeCalculatorServiceImpl.calculate_age (engine dp cfg)
                  w name age_years)).
Proof.
  intros H.
  pose (now := Build_datetime 2024 3 15 9 30 0 0).
  pose (cfg := {| ValidationConfig.min_age := -5;
                  ValidationConfig.max_age := 150;
                  ValidationConfig.min_name_length := 1;
                  ValidationConfig.max_name_length := 100;
                  ValidationConfig.allowed_name_characters := py_str "abc";
                  ValidationConfig.strict_name_validation := false |}).
  destruct (H (fixed_date now 2024 3 15) cfg (Build_ambient (py_str "0-0") now)
              (py_str "Ada") (-1)) as [r Hr].
  - unfold config_ranges_ok. simpl. lia.
  - unfold valid_month. simpl. lia.
  - split; reflexivity.
  - vm_compute in Hr. discriminate.
Qed.

(** What the engine does on that input: the [ValueError] of [Age]. *)
Example negative_age_accepted_then_refused :
  let now := Build_datetime 2024 3 15 9 30 0 0 in
  let cfg := {| ValidationConfig.min_age := -5;
                ValidationConfig.max_age := 150;
                ValidationConfig.min_name_length := 1;
                ValidationConfig.max_name_length := 100;
                ValidationConfig.allowed_name_characters := py_str "abc";
                ValidationConfig.strict_name_validation := false |} in
  InputValidationService.validate_age {| InputValidationService._config := cfg |} (-1)
  = true
  ∧ AgeCalculatorServiceImpl.calculate_age (engine (fixed_date now 2024 3 15) cfg)
      (Build_ambient (py_str "0-0") now) (py_str "Ada") (-1)
    = Raise Age.negative_age.
Proof. by vm_compute. Qed.

(** C3, amended: for a configuration whose ranges are in order and
    whose minimum age is at least 0, every name and age that the
    validator accepts make [calculate_age] return its result, for every
    date with a month in [1,12] that the date source reports. *)
Theorem C3_accepted_inputs_succeed (dp : IDateTimeProvider)
    (cfg : ValidationConfig.t) (w : ambient) (name : str) (age_years : Z) :
  config_ranges_ok cfg →
  0 ≤ ValidationConfig.min_age cfg →
  valid_month (@get_current_month dp) →
  accepted cfg name age_years →
  AgeCalculatorServiceImpl.calculate_age (engine dp cfg) w name age_years
  = Ok (result_of dp w name age_years (total_days_formula dp age_years))
  ∧ returns (AgeCalculatorServiceImpl.calculate_age (engine dp cfg) w name age_years).
Proof.
  intros _ Hmin Hm Hacc.
  assert (0 ≤ age_years) as Hage.
  { destruct Hacc as [_ Ha]. apply accepted_age_bounds in Ha. lia. }
  pose proof (calculate_age_accepted dp cfg w name age_years Hacc Hage Hm) as Hr.
  split; [exact Hr | by eexists].
Qed.

(** C3 amended, for a newborn named "Ada" on 2024-01-03 under the
    default bounds. *)
Lemma C3_accepted_inputs_succeed_witness :
  returns
    (AgeCalculatorServiceImpl.calculate_age
       (engine (fixed_date (Build_datetime 2024 1 3 9 30 0 0) 2024 1 3)
          ValidationConfig.default)
       (Build_ambient (py_str "0-0") (Build_datetime 2024 1 3 9 30 0 0))
       (py_str "Ada") 0).
Proof.
  refine (proj2 (C3_accepted_inputs_succeed
                   (fixed_date (Build_datetime 2024 1 3 9 30 0 0) 2024 1 3)
                   ValidationConfig.default
                   (Build_ambient (py_str "0-0") (Build_datetime 2024 1 3 9 30 0 0))
                   (py_str "Ada") 0 _ _ _ _)).
  - unfold config_ranges_ok. simpl. lia.
  - simpl. lia.
  - unfold valid_month. simpl. lia.
  - split; reflexivity.
Defined.

(** C4: [calculate_age] raises the validation error before it reads the
    date or touches the calendar, for every date source and calendar
    the engine is built with, and hands out a result only for accepted
    input. A blank name (empty, or white space only) raises
    [NameValidationException] with reason empty_value, a name below the minimum length with too_short, one
    above the maximum with too_long; an age outside the bounds raises
    [AgeValidationException] with the age and both bounds; under the
    default bounds the ages -1 and 151 do so with bounds 0 and 150. *)
Theorem C4_validation_errors_at_boundary (self : AgeCalculatorServiceImpl.t)
    (w : ambient) (name : str) (age_years : Z) :
  let cfg := InputValidationService._config
               (AgeCalculatorServiceImpl._validation_service self) in
  let call := AgeCalculatorServiceImpl.calculate_age self w name age_years in
  (Str.strip name = [] →
     call = Raise (NameValidationException
                     (py_str "Name cannot be empty") name (py_str "empty_value")))
  ∧ (forallb Str.isspace name = true →
     call = Raise (NameValidationException
                     (py_str "Name cannot be empty") name (py_str "empty_value")))
  ∧ (nonblank name → len name < ValidationConfig.min_name_length cfg →
     call = Raise (NameValidationException
                     (py_str ("Name must be at least "
                              +:+ pretty (ValidationConfig.min_name_length cfg)
                              +:+ " characters"))
                     name (py_str "too_short")))
  ∧ (nonblank name → ValidationConfig.min_name_length cfg ≤ len name →
     ValidationConfig.max_name_length cfg < len name →
     call = Raise (NameValidationException
                     (py_str ("Name cannot exceed "
                              +:+ pretty (ValidationConfig.max_name_length cfg)
                              +:+ " characters"))
                     name (py_str "too_long")))
  ∧ (nonblank name →
     ValidationConfig.min_name_length cfg ≤ len name
       ≤ ValidationConfig.max_name_length cfg →
     age_years < ValidationConfig.min_age cfg
       ∨ ValidationConfig.max_age cfg < age_years →
     call = Raise (AgeValidationException
                     (py_str ("Age must be between "
                              +:+ pretty (ValidationConfig.min_age cfg) +:+ " and "
                              +:+ pretty (ValidationConfig.max_age cfg)))
                     age_years
                     (ValidationConfig.min_age cfg) (ValidationConfig.max_age cfg)))
  ∧ (cfg = ValidationConfig.default → nonblank name → len name ≤ 100 →
     age_years = -1 ∨ age_years = 151 →
     call = Raise (AgeValidationException
                     (py_str "Age must be between 0 and 150") age_years 0 150))
  ∧ (returns call → accepted cfg name age_years)
  ∧ (¬ accepted cfg name age_years → raises call).
Proof.
  intros cfg call.
  destruct self as [dp lyc mdc [c]]. simpl in cfg. subst cfg.
  assert (Hblank : Str.strip name = [] →
     call = Raise (NameValidationException
                     (py_str "Name cannot be empty") name (py_str "empty_value"))).
  { intros Hb. apply blank_test_true in Hb.
    unfold call, AgeCalculatorServiceImpl.calculate_age,
      InputValidationService.validate_name_with_exception.
    by rewrite Hb. }
  assert (Hage : nonblank name →
     ValidationConfig.min_name_length c ≤ len name
       ≤ ValidationConfig.max_name_length c →
     age_years < ValidationConfig.min_age c
       ∨ ValidationConfig.max_age c < age_years →
     call = Raise (AgeValidationException
                     (py_str ("Age must be between "
                              +:+ pretty (ValidationConfig.min_age c) +:+ " and "
                              +:+ pretty (ValidationConfig.max_age c)))
                     age_years
                     (ValidationConfig.min_age c) (ValidationConfig.max_age c))).
  { intros Hn Hlen Hout. apply blank_test_false in Hn.
    unfold call, AgeCalculatorServiceImpl.calculate_age,
      InputValidationService.validate_name_with_exception,
      InputValidationService.validate_age_with_exception.
    simpl. rewrite Hn.
    destruct (len name <? _) eqn:E1; [lia|].
    destruct (len name >? _) eqn:E2; [lia|]. simpl.
    destruct ((age_years <? _) || _) eqn:E3; [done|].
    apply orb_false_iff in E3. lia. }
  assert (Hret : returns call → accepted c name age_years).
  { intros [r Hr]. apply calculate_age_returns_accepted in Hr. exact Hr. }
  split_and!; try done.
  - intros Hs. by apply Hblank, strip_nil.
  - intros Hn Hlen. apply blank_test_false in Hn.
    unfold call, AgeCalculatorServiceImpl.calculate_age,
      InputValidationService.validate_name_with_exception.
    simpl. rewrite Hn.
    destruct (len name <? _) eqn:E1; [done | lia].
  - intros Hn Hmin Hmax. apply blank_test_false in Hn.
    unfold call, AgeCalculatorServiceImpl.calculate_age,
      InputValidationService.validate_name_with_exception.
    simpl. rewrite Hn.
    destruct (len name <? _) eqn:E1; [lia|].
    destruct (len name >? _) eqn:E2; [done | lia].
  - intros Hcfg Hn Hlen Hout.
    assert (1 ≤ len name).
    { unfold len. destruct name; [by destruct Hn | simpl; lia]. }
    rewrite Hage; [by rewrite Hcfg | done | rewrite Hcfg; simpl; lia
                   | rewrite Hcfg; simpl; lia].
  - intros Hna. destruct call as [r|e] eqn:E; [|by eexists].
    destruct Hna. apply Hret. by eexists.
Qed.

(** C4 for a name of two spaces, and for the age 151, under the default
    configuration. *)
Lemma C4_validation_errors_at_boundary_witness :
  let now := Build_datetime 2024 3 15 9 30 0 0 in
  let svc := engine (fixed_date now 2024 3 15) ValidationConfig.default in
  let w := Build_ambient (py_str "0-0") now in
  AgeCalculatorServiceImpl.calculate_age svc w (py_str "  ") 30
  = Raise (NameValidationException
             (py_str "Name cannot be empty") (py_str "  ") (py_str "empty_value"))
  ∧ AgeCalculatorServiceImpl.calculate_age svc w (py_str "Ada") 151
    = Raise (AgeValidationException
               (py_str "Age must be between 0 and 150") 151 0 150).
Proof.
  intros now svc w. split.
  - apply (C4_validation_errors_at_boundary svc w (py_str "  ") 30). reflexivity.
  - apply (C4_validation_errors_at_boundary svc w (py_str "Ada") 151).
    + reflexivity.
    + by vm_compute.
    + by vm_compute.
    + right. reflexivity.
Defined.

(** ** Name rules *)

Lemma forallb_contains (allowed name : str) :
  forallb (Str.contains allowed) name = true ↔ ∀ c, c ∈ name → c ∈ allowed.
Proof.
  rewrite forallb_forall. unfold Str.contains.
  split; intros H c Hc.
  - apply list_elem_of_In, H in Hc. by apply bool_decide_eq_true in Hc.
  - apply bool_decide_eq_true, H. by apply list_elem_of_In.
Qed.

(** C7: [validate_name] is true exactly when the name is not blank, its
    length is between the configured minimum and maximum and, in strict
    mode, each of its characters is in the allowed set; by default that
    set is the letters A-Z and a-z, the space, the hyphen and the
    apostrophe, and strict mode is off. *)
Theorem C7_validate_name (cfg : ValidationConfig.t) (name : str) :
  (InputValidationService.validate_name
     {| InputValidationService._config := cfg |} name = true
   ↔ nonblank name
     ∧ ValidationConfig.min_name_length cfg ≤ len name
         ≤ ValidationConfig.max_name_length cfg
     ∧ (ValidationConfig.strict_name_validation cfg = true →
        ∀ c, c ∈ name → c ∈ ValidationConfig.allowed_name_characters cfg))
  ∧ (∀ c : N,
       c ∈ ValidationConfig.allowed_name_characters ValidationConfig.default
       ↔ (65 ≤ c ≤ 90 ∨ 97 ≤ c ≤ 122 ∨ c = 32 ∨ c = 45 ∨ c = 39)%N)
  ∧ ValidationConfig.strict_name_validation ValidationConfig.default = false.
Proof.
  split_and!; [| |done].
  - unfold InputValidationService.validate_name. simpl.
    rewrite <- blank_test_false.
    destruct (not_ (PyStr name) || not_ (PyStr (Str.strip name))).
    { split; [discriminate | by intros [? _]]. }
    destruct (len name <? _) eqn:E1.
    { split; [discriminate | lia]. }
    destruct (len name >? _) eqn:E2.
    { split; [discriminate | lia]. }
    destruct (ValidationConfig.strict_name_validation cfg).
    + rewrite forallb_contains. split; [intros H; split_and!; auto; lia|].
      intros (_ & _ & H). by apply H.
    + split; [intros _; split_and!; [done | lia | lia | discriminate] | done].
  - intros c.
    let l := eval vm_compute in
               (ValidationConfig.allowed_name_characters ValidationConfig.default) in
    change (ValidationConfig.allowed_name_characters ValidationConfig.default)
      with l.
    rewrite !elem_of_cons, elem_of_nil. lia.
Qed.

(** ** Requests *)

(** What [CalculationRequest.validate] tests: the name as it is, not
    the trimmed name. *)
Lemma validate_request_entity (request : CalculationRequest.t) :
  CalculationRequest.validate request = true
  ↔ CalculationRequest.name request ≠ []
    ∧ 0 ≤ CalculationRequest.age_in_years request.
Proof.
  unfold CalculationRequest.validate, truthy.
  by rewrite andb_true_iff, negb_true_iff, bool_decide_eq_false, Z.geb_le.
Qed.

(** C9 does not hold of the code: a request whose name is three spaces
    and whose age is 0 passes [validate], although its name is empty
    after trimming. *)
Theorem C9_validate_accepts_blank_name :
  let request :=
    {| CalculationRequest.id := py_str "0-0";
       CalculationRequest.name := py_str "   ";
       CalculationRequest.age_in_years := 0;
       CalculationRequest.include_months := true;
       CalculationRequest.include_days := true;
       CalculationRequest.include_weeks := true;
       CalculationRequest.include_hours := true;
       CalculationRequest.include_minutes := true;
       CalculationRequest.requested_at := Build_datetime 2024 3 15 9 30 0 0 |} in
  CalculationRequest.validate request = true
  ∧ ¬ nonblank (CalculationRequest.name request)
  ∧ InputValidationService.validate_name
      {| InputValidationService._config := ValidationConfig.default |}
      (CalculationRequest.name request) = false
  ∧ PersonName.new (PyStr (CalculationRequest.name request))
    = Raise PersonName.empty_name.
Proof.
  intros request. split_and!; try reflexivity.
  intros H. by apply H.
Qed.

(** ** Value objects and the results that hold them *)

Lemma PersonName_new_inv (v : pyval) (p : PersonName.t) :
  PersonName.new v = Ok p → v = PyStr (PersonName.value p) ∧ nonblank (PersonName.value p).
Proof.
  unfold PersonName.new. destruct v as [|n|s].
  - discriminate.
  - by destruct (not_ (PyInt n)).
  - destruct (not_ (PyStr s) || not_ (PyStr (Str.strip s))) eqn:E; [discriminate|].
    intros [= <-]. simpl. split; [done | by apply blank_test_false].
Qed.

Lemma Age_new_inv (v : pyval) (a : Age.t) :
  Age.new v = Ok a → v = PyInt (Age.years a) ∧ 0 ≤ Age.years a.
Proof.
  unfold Age.new. destruct v as [|n|s]; try discriminate.
  destruct (n <? 0) eqn:E; [discriminate|].
  intros [= <-]. simpl. split; [done | lia].
Qed.

Lemma build_if_inv {A} data key (C : pyval → result A) (o : option A) :
  FileBasedCalculationRepository.build_if data key C = Ok o →
  ∀ a, o = Some a → ∃ v, C v = Ok a.
Proof.
  unfold FileBasedCalculationRepository.build_if.
  destruct (truthy _); [|by intros [= <-]].
  destruct (FileBasedCalculationRepository.getitem data key) as [v|e];
    [|discriminate]. simpl.
  destruct (C v) as [a'|e] eqn:E; [|discriminate]. simpl.
  intros [= <-] a [= <-]. eauto.
Qed.

(** One step of a call that returned: its first sub-call returned too. *)
Ltac step_bind :=
  match goal with
  | |- (?c ≫= _) = Ok _ → _ => destruct c; [|discriminate]; simpl
  end.

(** C10: building a [PersonName] from blank text raises and building an
    [Age] from negative years raises; a [PersonName] or an [Age] that was
    built holds a name that is not blank, or years that are not negative;
    so every result whose name and age were built that way, every
    result that [calculate_age] returns, under any validation
    bounds and any calendar, and every result that [_dict_to_result]
    rebuilds from any dictionary, holds such a name and such an age
    when the two fields are present. *)
Theorem C10_value_object_invariants :
  (∀ s : str, Str.strip s = [] → PersonName.new (PyStr s) = Raise PersonName.empty_name)
  ∧ (∀ n : Z, n < 0 → Age.new (PyInt n) = Raise Age.negative_age)
  ∧ (∀ v p, PersonName.new v = Ok p → nonblank (PersonName.value p))
  ∧ (∀ v a, Age.new v = Ok a → 0 ≤ Age.years a)
  ∧ (∀ r v v' p a,
       PersonName.new v = Ok p → Age.new v' = Ok a →
       AgeCalculationResult.name r = Some p →
       AgeCalculationResult.age_years r = Some a →
       result_invariant r)
  ∧ (∀ self w name age_years r,
       AgeCalculatorServiceImpl.calculate_age self w name age_years = Ok r →
       result_invariant r)
  ∧ (∀ w data r,
       FileBasedCalculationRepository._dict_to_result w data = Ok r →
       result_invariant r).
Proof.
  split_and!.
  - intros s Hs. apply blank_test_true in Hs. unfold PersonName.new. by rewrite Hs.
  - intros n Hn. unfold Age.new. destruct (n <? 0) eqn:E; [done | lia].
  - intros v p Hp. by apply PersonName_new_inv in Hp as [_ ?].
  - intros v a Ha. by apply Age_new_inv in Ha as [_ ?].
  - intros r v v' p a Hp Ha Hrp Hra.
    apply PersonName_new_inv in Hp as [_ ?]. apply Age_new_inv in Ha as [_ ?].
    split; intros ? Hx; rewrite Hx in *; congruence.
  - intros self w name age_years r.
    unfold AgeCalculatorServiceImpl.calculate_age.
    destruct (InputValidationService.validate_name_with_exception _ _);
      [|discriminate]. simpl.
    destruct (InputValidationService.validate_age_with_exception _ _);
      [|discriminate]. simpl.
    destruct (AgeCalculatorServiceImpl._calculate_total_days _ _ _ _ _);
      [|discriminate]. simpl.
    destruct (PersonName.new (PyStr name)) as [p|] eqn:Ep; [|discriminate]. simpl.
    destruct (Age.new (PyInt age_years)) as [g|] eqn:Eg; [|discriminate]. simpl.
    intros [= <-]. split; simpl.
    + intros ? [= <-]. by apply PersonName_new_inv in Ep as [_ ?].
    + intros ? [= <-]. by apply Age_new_inv in Eg as [_ ?].
  - intros w data r.
    unfold FileBasedCalculationRepository._dict_to_result.
    destruct (FileBasedCalculationRepository.build_if data "name" _)
      as [on|] eqn:En; [|discriminate]. simpl.
    destruct (FileBasedCalculationRepository.build_if data "age_years" _)
      as [oa|] eqn:Ea; [|discriminate]. simpl.
    do 5 step_bind.
    intros [= <-]. split; simpl.
    + intros p ->. destruct (build_if_inv _ _ _ _ En p eq_refl) as [v Hv].
      by apply PersonName_new_inv in Hv as [_ ?].
    + intros g ->. destruct (build_if_inv _ _ _ _ Ea g eq_refl) as [v Hv].
      by apply Age_new_inv in Hv as [_ ?].
Qed.

(** C10 on a name of two spaces, on -1 years, and on the result for
    "Ada", aged 30, on 2024-03-15. *)
Lemma C10_value_object_invariants_witness :
  PersonName.new (PyStr (py_str "  ")) = Raise PersonName.empty_name
  ∧ Age.new (PyInt (-1)) = Raise Age.negative_age
  ∧ result_invariant
      (result_of (fixed_date (Build_datetime 2024 3 15 9 30 0 0) 2024 3 15)
         (Build_ambient (py_str "0-0") (Build_datetime 2024 3 15 9 30 0 0))
         (py_str "Ada") 30 11032).
Proof.
  destruct C10_value_object_invariants as (Hname & Hage & _ & _ & _ & Hcalc & _).
  split_and!.
  - apply Hname. reflexivity.
  - apply Hage. lia.
  - apply (Hcalc (engine (fixed_date (Build_datetime 2024 3 15 9 30 0 0) 2024 3 15)
                    ValidationConfig.default)
             (Build_ambient (py_str "0-0") (Build_datetime 2024 3 15 9 30 0 0))
             (py_str "Ada") 30).
    by vm_compute.
Defined.

(** ** The flat record and back *)

Lemma to_dict_lookups (r : AgeCalculationResult.t) :
  let d := AgeCalculationResult.to_dict r in
  d !! "id"%string = Some (AgeCalculationResult.id r)
  ∧ d !! "name"%string
    = Some (field_or_none (AgeCalculationResult.name r)
              (λ n, PyStr (PersonName.__str__ n)))
  ∧ d !! "age_years"%string
    = Some (field_or_none (AgeCalculationResult.age_years r)
              (λ a, PyInt (Age.years a)))
  ∧ d !! "age_months"%string
    = Some (field_or_none (AgeCalculationResult.age_months r) AgeInMonths.months)
  ∧ d !! "age_days"%string
    = Some (field_or_none (AgeCalculationResult.age_days r) AgeInDays.days)
  ∧ d !! "age_weeks"%string
    = Some (field_or_none (AgeCalculationResult.age_weeks r) AgeInWeeks.weeks)
  ∧ d !! "age_hours"%string
    = Some (field_or_none (AgeCalculationResult.age_hours r) AgeInHours.hours)
  ∧ d !! "age_minutes"%string
    = Some (field_or_none (AgeCalculationResult.age_minutes r) AgeInMinutes.minutes)
  ∧ d !! "birth_year"%string = Some (AgeCalculationResult.birth_year r)
  ∧ d !! "current_year"%string = Some (AgeCalculationResult.current_year r).
Proof. split_and!; reflexivity. Qed.

(** A field without a check comes back when its stored value is true. *)
Lemma build_if_plain {A} (data : gmap string pyval) key v (mk : pyval → A) :
  data !! key = Some v →
  FileBasedCalculationRepository.build_if data key (λ v, Ok (mk v))
  = Ok (kept v (mk v)).
Proof.
  intros H. unfold FileBasedCalculationRepository.build_if, kept,
    FileBasedCalculationRepository.get, FileBasedCalculationRepository.getitem.
  rewrite H. by destruct (truthy v).
Qed.

(** What [_dict_to_result] rebuilds from the flat record of an engine
    result: each numeric value object only when its number is not 0. *)
Lemma round_trip_engine_result dp (w w' : ambient) (name : str) (age_years D : Z) :
  nonblank name → 0 ≤ age_years →
  FileBasedCalculationRepository._dict_to_result w'
    (AgeCalculationResult.to_dict (result_of dp w name age_years D))
  = Ok (round_trip_of dp w w' name age_years D).
Proof.
  intros Hn Ha.
  destruct (to_dict_lookups (result_of dp w name age_years D))
    as (Hid & Hname & Hyears & Hmonths & Hdays & Hweeks & Hhours & Hmin & Hby & Hcy).
  unfold FileBasedCalculationRepository._dict_to_result.
  rewrite (build_if_plain _ _ _ _ Hmonths), (build_if_plain _ _ _ _ Hdays),
    (build_if_plain _ _ _ _ Hweeks), (build_if_plain _ _ _ _ Hhours),
    (build_if_plain _ _ _ _ Hmin).
  unfold FileBasedCalculationRepository.build_if,
    FileBasedCalculationRepository.get, FileBasedCalculationRepository.getitem.
  rewrite Hid, Hname, Hyears, Hby, Hcy. simpl.
  assert (Ht : negb (bool_decide (name = [])) = true).
  { apply negb_true_iff, bool_decide_eq_false. intros ->. by apply Hn. }
  unfold PersonName.__str__. simpl. rewrite Ht. simpl.
  rewrite PersonName_new_nonblank by done. simpl.
  unfold round_trip_of, kept. simpl.
  destruct (age_years =? 0); simpl; [done|].
  by rewrite Age_new_nonneg by done.
Qed.

(** The round trip keeps every numeric field of an engine result whose
    years and weeks are not 0 (days, hours and minutes then are not 0
    either). *)
Lemma round_trip_exact_when_nonzero dp (w w' : ambient) (name : str)
    (age_years D : Z) :
  nonblank name → 0 < age_years → 0 < @get_current_month dp → 7 ≤ D →
  ∃ r', FileBasedCalculationRepository._dict_to_result w'
          (AgeCalculationResult.to_dict (result_of dp w name age_years D)) = Ok r'
        ∧ numeric_fields r' = numeric_fields (result_of dp w name age_years D).
Proof.
  intros Hn Ha Hm HD. eexists. split.
  - apply round_trip_engine_result; [done | lia].
  - unfold numeric_fields, round_trip_of, result_of, kept, truthy. simpl.
    assert (0 < D `div` 7) by (apply Z.div_str_pos; lia).
    repeat match goal with
           | |- context [?x =? 0] =>
               let E := fresh in destruct (x =? 0) eqn:E; [lia|]
           end.
    reflexivity.
Qed.

(** C2 does not hold of the code: the result for a newborn (age 0) on
    2024-01-03 has [age_years] 0 and [age_weeks] 0; its flat record
    stores both zeros, and [_dict_to_result] gives back a result without
    these two fields, since it tests the stored numbers for truth. *)
Theorem C2_round_trip_loses_zero :
  let now := Build_datetime 2024 1 3 9 30 0 0 in
  let w := Build_ambient (py_str "0-0") now in
  let svc := engine (fixed_date now 2024 1 3) ValidationConfig.default in
  ∃ r r',
    AgeCalculatorServiceImpl.calculate_age svc w (py_str "Ada") 0 = Ok r
    ∧ FileBasedCalculationRepository._dict_to_result w
        (AgeCalculationResult.to_dict r) = Ok r'
    ∧ AgeCalculationResult.to_dict r !! "age_years"%string = Some (PyInt 0)
    ∧ AgeCalculationResult.age_years r = Some {| Age.years := 0 |}
    ∧ AgeCalculationResult.age_years r' = None
    ∧ AgeCalculationResult.age_weeks r = Some {| AgeInWeeks.weeks := PyInt 0 |}
    ∧ AgeCalculationResult.age_weeks r' = None
    ∧ numeric_fields r' ≠ numeric_fields r.
Proof.
  intros now w svc. do 2 eexists. split_and!.
  - by vm_compute.
  - by vm_compute.
  - by vm_compute.
  - done.
  - done.
  - done.
  - done.
  - discriminate.
Qed.

(** The same loss at every date: an accepted newborn never gets the
    years back. *)
Lemma round_trip_age_zero dp cfg (w w' : ambient) (name : str) :
  valid_month (@get_current_month dp) → accepted cfg name 0 →
  ∃ r r',
    AgeCalculatorServiceImpl.calculate_age (engine dp cfg) w name 0 = Ok r
    ∧ FileBasedCalculationRepository._dict_to_result w'
        (AgeCalculationResult.to_dict r) = Ok r'
    ∧ AgeCalculationResult.age_years r = Some {| Age.years := 0 |}
    ∧ AgeCalculationResult.age_years r' = None.
Proof.
  intros Hm Hacc. do 2 eexists. split_and!.
  - by apply calculate_age_accepted.
  - apply round_trip_engine_result; [|done].
    destruct Hacc as [Hn _]. by apply accepted_name_nonblank in Hn.
  - done.
  - done.
Qed.

(** * Further properties of the code *)

(** ** The calendar, beyond the table *)

(** The first call that raises ends the loop with its exception. *)
Lemma for_raises_at {A} (g : A → result Z) (f : A → Z) (xs ys : list A) (x : A) e s :
  Forall (λ x, g x = Ok (f x)) xs →
  g x = Raise e →
  for_ (xs ++ x :: ys) (λ x total, d ← g x; Ok (total + d)) s = Raise e.
Proof.
  intros Hxs Hx. revert s. induction Hxs as [|y xs Hy _ IH]; intros s; simpl.
  - by rewrite Hx.
  - rewrite Hy. simpl. apply IH.
Qed.

Lemma Zsum_app (l k : list Z) : Zsum (l ++ k) = Zsum l + Zsum k.
Proof. unfold Zsum. induction l as [|x l IH]; simpl; lia. Qed.

Lemma isleap_period (y : Z) : isleap (y + 400) = isleap y.
Proof.
  unfold isleap.
  replace ((y + 400) mod 4) with (y mod 4)
    by (replace (y + 400) with (y + 100 * 4) by lia; by rewrite Z_mod_plus_full).
  replace ((y + 400) mod 100) with (y mod 100)
    by (replace (y + 400) with (y + 4 * 100) by lia; by rewrite Z_mod_plus_full).
  replace ((y + 400) mod 400) with (y mod 400)
    by (replace (y + 400) with (y + 1 * 400) by lia; by rewrite Z_mod_plus_full).
  done.
Qed.

Lemma full_year_days_shift (a y : Z) :
  0 ≤ a →
  full_year_days a (y + 1) + StandardLeapYearCalculator.get_days_in_year (y - a)
  = full_year_days a y + StandardLeapYearCalculator.get_days_in_year y.
Proof.
  intros Ha.
  assert (H1 : full_year_days (a + 1) (y + 1)
               = StandardLeapYearCalculator.get_days_in_year (y - a)
                 + full_year_days a (y + 1)).
  { rewrite full_year_days_succ by done. do 2 f_equal. lia. }
  assert (H2 : full_year_days (a + 1) (y + 1)
               = full_year_days a y + StandardLeapYearCalculator.get_days_in_year y).
  { unfold full_year_days.
    replace (y + 1 - (a + 1)) with (y - a) by lia.
    rewrite seqZ_app by lia. rewrite fmap_app.
    replace (y - a + a) with y by lia.
    rewrite (seqZ_cons y 1) by lia. rewrite (seqZ_nil (Z.succ y)) by lia.
    rewrite Zsum_app. unfold Zsum at 2. simpl. lia. }
  lia.
Qed.

(** Four hundred years back from any current year hold 146,097 days
    (97 leap years), a whole number of weeks. *)
Lemma full_years_400 (y : Z) :
  full_year_days 400 y = 146097
  ∧ full_year_days 400 y = 400 * 365 + 97
  ∧ full_year_days 400 y `mod` 7 = 0.
Proof.
  assert (H : full_year_days 400 y = 146097).
  { revert y. apply Z.bi_induction.
    - by intros ? ? ->.
    - by vm_compute.
    - intros y.
      pose proof (full_year_days_shift 400 y ltac:(lia)) as Hs.
      unfold StandardLeapYearCalculator.get_days_in_year,
        StandardLeapYearCalculator.is_leap_year in Hs.
      rewrite <- (isleap_period (y - 400)) in Hs.
      replace (y - 400 + 400) with y in Hs by lia.
      replace (Z.succ y) with (y + 1) by lia. lia. }
  rewrite H. by vm_compute.
Qed.

Lemma full_year_days_add (a b y : Z) :
  0 ≤ a → 0 ≤ b →
  full_year_days (a + b) y = full_year_days b (y - a) + full_year_days a y.
Proof.
  intros Ha Hb. unfold full_year_days.
  replace (a + b) with (b + a) by lia.
  rewrite seqZ_app by lia. rewrite fmap_app, Zsum_app.
  replace (y - (b + a) + b) with (y - a) by lia.
  by replace (y - (b + a)) with (y - a - b) by lia.
Qed.

(** X1: on a date with a month in [1,12], an age 400 years higher
    always counts exactly 146,097 days more (400 years with 97 leap
    years, a whole number of weeks), whatever the current year. *)
Theorem four_hundred_years_more dp cfg (a y m d : Z) :
  valid_month m → 0 ≤ a →
  ∃ D,
    AgeCalculatorServiceImpl._calculate_total_days (engine dp cfg) a y m d = Ok D
    ∧ AgeCalculatorServiceImpl._calculate_total_days (engine dp cfg) (a + 400) y m d
      = Ok (D + 146097)
    ∧ (D + 146097) `mod` 7 = D `mod` 7.
Proof.
  intros Hm Ha. rewrite !total_days_standard by done.
  eexists. split_and!; [done | |].
  - f_equal. rewrite full_year_days_add by lia.
    destruct (full_years_400 (y - a)) as [-> _]. lia.
  - replace 146097 with (20871 * 7) by lia. apply Z_mod_plus_full.
Qed.

(** X1 on 2024-03-15, from age 30 to age 430. *)
Lemma four_hundred_years_more_witness :
  ∃ D,
    AgeCalculatorServiceImpl._calculate_total_days
      (engine (fixed_date (Build_datetime 2024 3 15 9 30 0 0) 2024 3 15)
         ValidationConfig.default) 30 2024 3 15 = Ok D
    ∧ AgeCalculatorServiceImpl._calculate_total_days
        (engine (fixed_date (Build_datetime 2024 3 15 9 30 0 0) 2024 3 15)
           ValidationConfig.default) (30 + 400) 2024 3 15 = Ok (D + 146097)
    ∧ (D + 146097) `mod` 7 = D `mod` 7.
Proof.
  apply four_hundred_years_more.
  - unfold valid_month. lia.
  - lia.
Defined.

(** The engine's loop over the months before the current one, for every
    month up to 13. *)
Lemma month_loop_safe dp cfg (age_years y m d : Z) :
  m ≤ 13 →
  AgeCalculatorServiceImpl._calculate_total_days (engine dp cfg) age_years y m d
  = Ok (full_year_days age_years y
        + table_days_before m (StandardLeapYearCalculator.is_leap_year y) + d).
Proof.
  intros Hm. unfold AgeCalculatorServiceImpl._calculate_total_days. simpl.
  rewrite for_total. simpl.
  rewrite (for_total_calls _
             (λ k, table_days k (StandardLeapYearCalculator.is_leap_year y))).
  - simpl. unfold full_year_days, table_days_before, range.
    replace (y - (y - age_years)) with age_years by lia.
    by rewrite Z.add_0_l.
  - apply Forall_seqZ. intros k Hk. apply get_days_in_month_valid.
    unfold valid_month. lia.
Qed.

(** X2: the engine's own loop over the months has no guard of its own.
    For a month of at most 13 it returns (no month days for a month of
    at most 1, the whole year for 13); from month 14 on it raises the
    error of [get_days_in_month] for month 13, whatever the month is;
    [get_days_up_to_month] refuses all of these months itself. *)
Theorem total_days_month_range dp cfg (age_years y m d : Z) :
  let total :=
    AgeCalculatorServiceImpl._calculate_total_days (engine dp cfg) age_years y m d in
  let leap := StandardLeapYearCalculator.is_leap_year y in
  (m ≤ 1 → total = Ok (full_year_days age_years y + d))
  ∧ (m = 13 →
     total = Ok (full_year_days age_years y
                 + StandardLeapYearCalculator.get_days_in_year y + d))
  ∧ (14 ≤ m → total = Raise (StandardMonthDaysCalculator.invalid_month 13))
  ∧ (m ≤ 0 ∨ 13 ≤ m →
     StandardMonthDaysCalculator.get_days_up_to_month m leap
     = Raise (StandardMonthDaysCalculator.invalid_month m)).
Proof.
  intros total leap. split_and!.
  - intros Hm. unfold total. rewrite month_loop_safe by lia.
    unfold table_days_before. rewrite seqZ_nil by lia.
    f_equal. unfold Zsum. simpl. lia.
  - intros ->. unfold total. rewrite month_loop_safe by lia.
    do 2 f_equal. unfold StandardLeapYearCalculator.get_days_in_year.
    fold leap. by destruct leap.
  - intros Hm. unfold total, AgeCalculatorServiceImpl._calculate_total_days. simpl.
    rewrite for_total. simpl. unfold range.
    replace (m - 1) with (12 + (m - 13)) by lia.
    rewrite seqZ_app by lia.
    rewrite (seqZ_cons (1 + 12)) by lia.
    rewrite (for_raises_at
               (λ k, StandardMonthDaysCalculator.get_days_in_month k leap)
               (λ k, table_days k leap) _ _ _
               (StandardMonthDaysCalculator.invalid_month 13)); [done | | done].
    apply Forall_seqZ. intros k Hk. apply get_days_in_month_valid.
    unfold valid_month. lia.
  - intros Hm. unfold StandardMonthDaysCalculator.get_days_up_to_month.
    rewrite month_guard_invalid; [done | unfold valid_month; lia].
Qed.

(** X2 at month 0, month 13 and month 20 of 2024. *)
Lemma total_days_month_range_witness :
  let svc := engine (fixed_date (Build_datetime 2024 3 15 9 30 0 0) 2024 3 15)
               ValidationConfig.default in
  AgeCalculatorServiceImpl._calculate_total_days svc 0 2024 0 15 = Ok 15
  ∧ AgeCalculatorServiceImpl._calculate_total_days svc 0 2024 13 15 = Ok 381
  ∧ AgeCalculatorServiceImpl._calculate_total_days svc 0 2024 20 15
    = Raise (StandardMonthDaysCalculator.invalid_month 13).
Proof.
  intros svc.
  pose proof (total_days_month_range
                (fixed_date (Build_datetime 2024 3 15 9 30 0 0) 2024 3 15)
                ValidationConfig.default 0 2024) as H.
  split_and!.
  - apply (H 0 15). lia.
  - apply (H 13 15). lia.
  - apply (H 20 15). lia.
Defined.

(** X3: one calendar day later, the day total is one more: inside a
    month, from the last day of a month to the first of the next, and
    from 31 December to 1 January of the next year with the age raised
    by one. *)
Theorem next_day_adds_one dp cfg (a y m d : Z) :
  valid_month m → 0 ≤ a →
  let leap := StandardLeapYearCalculator.is_leap_year y in
  let total := AgeCalculatorServiceImpl._calculate_total_days (engine dp cfg) in
  ∃ D, total a y m d = Ok D
       ∧ total a y m (d + 1) = Ok (D + 1)
       ∧ (m < 12 → d = table_days m leap → total a y (m + 1) 1 = Ok (D + 1))
       ∧ (m = 12 → d = 31 → total (a + 1) (y + 1) 1 1 = Ok (D + 1)).
Proof.
  intros Hm Ha leap total. unfold total.
  rewrite !month_loop_safe by (unfold valid_month in Hm; lia).
  eexists. split_and!; [done | f_equal; lia | |].
  - intros Hlt ->. f_equal. fold leap.
    assert (table_days_before (m + 1) leap
            = table_days_before m leap + table_days m leap) as ->; [|lia].
    clear -Hm. each_month Hm; by destruct leap.
  - intros -> ->. f_equal.
    pose proof (full_year_days_shift a y Ha) as Hs.
    rewrite full_year_days_succ by done.
    replace (y + 1 - a - 1) with (y - a) by lia.
    assert (table_days_before 12 leap + 31
            = StandardLeapYearCalculator.get_days_in_year y) as Hy.
    { unfold StandardLeapYearCalculator.get_days_in_year. fold leap.
      by destruct leap. }
    change (table_days_before 1 (StandardLeapYearCalculator.is_leap_year (y + 1)))
      with 0.
    fold leap. lia.
Qed.

(** X3 from 2023-12-31 at age 29 to 2024-01-01 at age 30. *)
Lemma next_day_adds_one_witness :
  let total :=
    AgeCalculatorServiceImpl._calculate_total_days
      (engine (fixed_date (Build_datetime 2024 3 15 9 30 0 0) 2024 3 15)
         ValidationConfig.default) in
  total 29 2023 12 31 = Ok 10957 ∧ total 30 2024 1 1 = Ok 10958.
Proof.
  intros total.
  destruct (next_day_adds_one
              (fixed_date (Build_datetime 2024 3 15 9 30 0 0) 2024 3 15)
              ValidationConfig.default 29 2023 12 31)
    as (D & HD & _ & _ & Hyear).
  - unfold valid_month. lia.
  - lia.
  - assert (D = 10957) as -> by (vm_compute in HD; congruence).
    split; [exact HD | by apply Hyear].
Defined.

Lemma full_year_days_bounds (a y : Z) :
  0 ≤ a → 365 * a ≤ full_year_days a y ≤ 366 * a.
Proof.
  intros Ha.
  apply (natlike_ind (λ a, 365 * a ≤ full_year_days a y ≤ 366 * a));
    [by vm_compute | | exact Ha].
  intros n Hn IH. replace (Z.succ n) with (n + 1) by lia.
  rewrite full_year_days_succ by done.
  pose proof (days_in_year_positive (y - n - 1)). lia.
Qed.

Lemma table_days_before_bounds (m : Z) (leap : bool) :
  valid_month m → 0 ≤ table_days_before m leap ≤ 335.
Proof. intros Hm. destruct leap; each_month Hm; by vm_compute. Qed.

(** X4: on a date with a month in [1,12], an age of [a] full years
    accounts for between 365 a and 366 a days, and the days of the
    current year for at most 335 before the month, so the total lies
    between 365 a + day and 366 a + 335 + day. *)
Theorem total_days_bounds dp cfg (a y m d : Z) :
  valid_month m → 0 ≤ a →
  ∃ D, AgeCalculatorServiceImpl._calculate_total_days (engine dp cfg) a y m d = Ok D
       ∧ 365 * a + d ≤ D ≤ 366 * a + 335 + d.
Proof.
  intros Hm Ha. rewrite total_days_standard by done. eexists. split; [done|].
  pose proof (full_year_days_bounds a y Ha).
  pose proof (table_days_before_bounds m
                (StandardLeapYearCalculator.is_leap_year y) Hm).
  lia.
Qed.

(** X4 on 2024-03-15 at age 30. *)
Lemma total_days_bounds_witness :
  ∃ D, AgeCalculatorServiceImpl._calculate_total_days
         (engine (fixed_date (Build_datetime 2024 3 15 9 30 0 0) 2024 3 15)
            ValidationConfig.default) 30 2024 3 15 = Ok D
       ∧ 365 * 30 + 15 ≤ D ≤ 366 * 30 + 335 + 15.
Proof.
  apply total_days_bounds.
  - unfold valid_month. lia.
  - lia.
Defined.

(** X5: the days before a month grow strictly with the month, by the
    length of each month passed. *)
Theorem days_up_to_month_increasing (m m' : Z) (leap : bool) :
  valid_month m → valid_month m' → m < m' →
  ∃ b b' k,
    StandardMonthDaysCalculator.get_days_up_to_month m leap = Ok b
    ∧ StandardMonthDaysCalculator.get_days_up_to_month m' leap = Ok b'
    ∧ StandardMonthDaysCalculator.get_days_in_month m leap = Ok k
    ∧ b + k ≤ b' ∧ 28 ≤ k ≤ 31.
Proof.
  intros Hm Hm' Hlt.
  rewrite !get_days_up_to_month_valid, get_days_in_month_valid by done.
  do 3 eexists. split_and!; try done.
  - unfold table_days_before.
    replace (m' - 1) with ((m - 1) + (m' - m)) by lia.
    unfold valid_month in *.
    rewrite seqZ_app by lia. rewrite fmap_app.
    replace (1 + (m - 1)) with m by lia.
    rewrite (seqZ_cons m) by lia. rewrite fmap_cons.
    assert (Hnn : Forall (λ x, 0 ≤ x)
                    ((λ k, table_days k leap) <$> seqZ (Z.succ m) (Z.pred (m' - m)))).
    { apply Forall_fmap, Forall_seqZ. intros k Hk. simpl.
      assert (valid_month k) as Hv by (unfold valid_month; lia).
      clear -Hv. each_month Hv; by destruct leap. }
    revert Hnn. generalize ((λ k, table_days k leap) <$> seqZ (Z.succ m) (Z.pred (m' - m))).
    intros tl Htl.
    assert (0 ≤ Zsum tl) as Hpos.
    { induction Htl as [|x l Hx _ IH]; [by vm_compute | rewrite Zsum_cons; lia]. }
    rewrite Zsum_app, Zsum_cons. lia.
  - clear -Hm. each_month Hm; destruct leap; by vm_compute.
  - clear -Hm. each_month Hm; destruct leap; by vm_compute.
Qed.

(** X5 from February to March of a leap year. *)
Lemma days_up_to_month_increasing_witness :
  ∃ b b' k,
    StandardMonthDaysCalculator.get_days_up_to_month 2 true = Ok b
    ∧ StandardMonthDaysCalculator.get_days_up_to_month 3 true = Ok b'
    ∧ StandardMonthDaysCalculator.get_days_in_month 2 true = Ok k
    ∧ b + k ≤ b' ∧ 28 ≤ k ≤ 31.
Proof.
  apply days_up_to_month_increasing; unfold valid_month; lia.
Defined.

(** ** The two faces of the validator *)

(** X6: [validate_age] and [validate_age_with_exception] decide the same
    ages, those between the two bounds, both included; a refused age
    comes back in the exception with the two bounds. With a minimum
    above the maximum no age passes. *)
Theorem validate_age_agrees (cfg : ValidationConfig.t) (age : Z) :
  let vs := {| InputValidationService._config := cfg |} in
  (InputValidationService.validate_age vs age = true
   ↔ ValidationConfig.min_age cfg ≤ age ≤ ValidationConfig.max_age cfg)
  ∧ (InputValidationService.validate_age vs age = true
     ↔ InputValidationService.validate_age_with_exception vs age = Ok ())
  ∧ (InputValidationService.validate_age vs age = false
     ↔ ∃ m, InputValidationService.validate_age_with_exception vs age
            = Raise (AgeValidationException m age
                       (ValidationConfig.min_age cfg) (ValidationConfig.max_age cfg)))
  ∧ (ValidationConfig.max_age cfg < ValidationConfig.min_age cfg →
     InputValidationService.validate_age vs age = false).
Proof.
  intros vs.
  assert (Hb : InputValidationService.validate_age vs age = true
               ↔ ValidationConfig.min_age cfg ≤ age ≤ ValidationConfig.max_age cfg).
  { unfold InputValidationService.validate_age. simpl.
    rewrite andb_true_iff. lia. }
  split_and!.
  - exact Hb.
  - rewrite Hb. symmetry. apply accepted_age_bounds.
  - rewrite <- not_true_iff_false, Hb.
    unfold InputValidationService.validate_age_with_exception. simpl.
    destruct ((age <? _) || (age >? _)) eqn:E'.
    + apply orb_true_iff in E'. split; [eauto | lia].
    + apply orb_false_iff in E'. split; [lia | by intros [? ?]].
  - intros Hlt. apply not_true_iff_false. rewrite Hb. lia.
Qed.

(** X6 at ages 150 and 151 under the default bounds, and under bounds
    given in the wrong order. *)
Lemma validate_age_agrees_witness :
  InputValidationService.validate_age_with_exception
    {| InputValidationService._config := ValidationConfig.default |} 150 = Ok ()
  ∧ InputValidationService.validate_age
      {| InputValidationService._config :=
           {| ValidationConfig.min_age := 10; ValidationConfig.max_age := 5;
              ValidationConfig.min_name_length := 1;
              ValidationConfig.max_name_length := 100;
              ValidationConfig.allowed_name_characters := [];
              ValidationConfig.strict_name_validation := false |} |} 7 = false.
Proof.
  split.
  - apply (validate_age_agrees ValidationConfig.default 150). reflexivity.
  - apply validate_age_agrees. simpl. lia.
Defined.

(** X7: [validate_name_with_exception], the check that [calculate_age]
    runs, lets a name through exactly when it is not blank and its
    length is in range; the allowed-character rule of strict mode is no
    part of it. So every name that [validate_name] accepts passes it,
    the two agree when strict mode is off, and in strict mode a name with
    a character outside the allowed set is refused by [validate_name]
    only. *)
Theorem name_exception_ignores_strict (cfg : ValidationConfig.t) (name : str) :
  let vs := {| InputValidationService._config := cfg |} in
  (InputValidationService.validate_name_with_exception vs name = Ok ()
   ↔ nonblank name
     ∧ ValidationConfig.min_name_length cfg ≤ len name
         ≤ ValidationConfig.max_name_length cfg)
  ∧ (InputValidationService.validate_name vs name = true →
     InputValidationService.validate_name_with_exception vs name = Ok ())
  ∧ (ValidationConfig.strict_name_validation cfg = false →
     InputValidationService.validate_name_with_exception vs name = Ok () →
     InputValidationService.validate_name vs name = true)
  ∧ (ValidationConfig.strict_name_validation cfg = true →
     InputValidationService.validate_name_with_exception vs name = Ok () →
     (∃ c, c ∈ name ∧ c ∉ ValidationConfig.allowed_name_characters cfg) →
     InputValidationService.validate_name vs name = false).
Proof.
  intros vs.
  assert (He : InputValidationService.validate_name_with_exception vs name = Ok ()
               ↔ nonblank name
                 ∧ ValidationConfig.min_name_length cfg ≤ len name
                     ≤ ValidationConfig.max_name_length cfg).
  { unfold InputValidationService.validate_name_with_exception. simpl.
    rewrite <- blank_test_false.
    destruct (not_ (PyStr name) || not_ (PyStr (Str.strip name))).
    { split; [discriminate | by intros [? _]]. }
    destruct (len name <? _) eqn:E1.
    { split; [discriminate | lia]. }
    destruct (len name >? _) eqn:E2.
    { split; [discriminate | lia]. }
    split; [intros _; split; [done | lia] | done]. }
  assert (Hv : InputValidationService.validate_name vs name
               = match InputValidationService.validate_name_with_exception vs name with
                 | Ok _ =>
                     if ValidationConfig.strict_name_validation cfg then
                       forallb (Str.contains (ValidationConfig.allowed_name_characters cfg))
                         name
                     else true
                 | Raise _ => false
                 end).
  { unfold InputValidationService.validate_name,
      InputValidationService.validate_name_with_exception. simpl.
    destruct (not_ (PyStr name) || not_ (PyStr (Str.strip name))); [done|].
    destruct (len name <? _); [done|].
    by destruct (len name >? _). }
  split_and!.
  - exact He.
  - rewrite Hv.
    by destruct (InputValidationService.validate_name_with_exception vs name) as [[]|].
  - intros Hs Hok. by rewrite Hv, Hok, Hs.
  - intros Hs Hok (c & Hc & Hnot). rewrite Hv, Hok, Hs.
    apply not_true_iff_false. rewrite forallb_contains. intros H. by apply Hnot, H.
Qed.

(** X7 for the name "R2-D2" in strict mode with the default characters:
    refused by [validate_name], passed by the check of [calculate_age]. *)
Lemma name_exception_ignores_strict_witness :
  let cfg := {| ValidationConfig.min_age := 0; ValidationConfig.max_age := 150;
                ValidationConfig.min_name_length := 1;
                ValidationConfig.max_name_length := 100;
                ValidationConfig.allowed_name_characters :=
                  ValidationConfig.allowed_name_characters ValidationConfig.default;
                ValidationConfig.strict_name_validation := true |} in
  InputValidationService.validate_name
    {| InputValidationService._config := cfg |} (py_str "R2-D2") = false
  ∧ InputValidationService.validate_name_with_exception
      {| InputValidationService._config := cfg |} (py_str "R2-D2") = Ok ().
Proof.
  intros cfg. split; [|reflexivity].
  apply (name_exception_ignores_strict cfg (py_str "R2-D2")).
  - reflexivity.
  - reflexivity.
  - exists 50%N. split; apply (bool_decide_unpack _); by vm_compute.
Defined.

(** X8: [validate_request] reports one message for each of the two
    checks that fails, the name first, and the empty list exactly when
    [validate_name] and [validate_age] both accept. When the minimum age
    is not negative, a request with no message also passes its own
    [validate]. *)
Theorem validate_request_lists_failures (cfg : ValidationConfig.t)
    (request : CalculationRequest.t) :
  let vs := {| InputValidationService._config := cfg |} in
  let name_ok :=
    InputValidationService.validate_name vs (CalculationRequest.name request) in
  let age_ok :=
    InputValidationService.validate_age vs (CalculationRequest.age_in_years request) in
  Z.of_nat (length (InputValidationService.validate_request vs request))
  = (if name_ok then 0 else 1) + (if age_ok then 0 else 1)
  ∧ (InputValidationService.validate_request vs request = []
     ↔ name_ok = true ∧ age_ok = true)
  ∧ (name_ok = false →
     head (InputValidationService.validate_request vs request)
     = Some (py_str ("Invalid name: must be "
                     +:+ pretty (ValidationConfig.min_name_length cfg) +:+ "-"
                     +:+ pretty (ValidationConfig.max_name_length cfg)
                     +:+ " characters")))
  ∧ (0 ≤ ValidationConfig.min_age cfg →
     InputValidationService.validate_request vs request = [] →
     CalculationRequest.validate request = true).
Proof.
  intros vs name_ok age_ok.
  assert (Hreq : InputValidationService.validate_request vs request
           = (if name_ok then [] else
                [py_str ("Invalid name: must be "
                         +:+ pretty (ValidationConfig.min_name_length cfg) +:+ "-"
                         +:+ pretty (ValidationConfig.max_name_length cfg)
                         +:+ " characters")])
             ++ (if age_ok then [] else
                   [py_str ("Invalid age: must be between "
                            +:+ pretty (ValidationConfig.min_age cfg) +:+ " and "
                            +:+ pretty (ValidationConfig.max_age cfg))])).
  { unfold InputValidationService.validate_request. fold name_ok age_ok. simpl.
    by destruct name_ok, age_ok. }
  split_and!.
  - rewrite Hreq. by destruct name_ok, age_ok.
  - rewrite Hreq. destruct name_ok, age_ok; simpl; split; try done; by intros [? ?].
  - intros Hn. rewrite Hreq, Hn. by destruct age_ok.
  - intros Hmin H. rewrite Hreq in H.
    destruct name_ok eqn:En; [|done]. destruct age_ok eqn:Ea; [|done].
    apply validate_request_entity. split.
    + unfold name_ok, InputValidationService.validate_name in En.
      destruct (CalculationRequest.name request); [done|done].
    + unfold age_ok, InputValidationService.validate_age in Ea. simpl in Ea.
      apply andb_true_iff in Ea. lia.
Qed.

(** X8 for a request with a blank name and the age 200. *)
Lemma validate_request_lists_failures_witness :
  let request :=
    {| CalculationRequest.id := py_str "0-0";
       CalculationRequest.name := py_str " ";
       CalculationRequest.age_in_years := 200;
       CalculationRequest.include_months := true;
       CalculationRequest.include_days := true;
       CalculationRequest.include_weeks := true;
       CalculationRequest.include_hours := true;
       CalculationRequest.include_minutes := true;
       CalculationRequest.requested_at := Build_datetime 2024 3 15 9 30 0 0 |} in
  head (InputValidationService.validate_request
          {| InputValidationService._config := ValidationConfig.default |} request)
  = Some (py_str "Invalid name: must be 1-100 characters").
Proof.
  intros request.
  apply (validate_request_lists_failures ValidationConfig.default request).
  reflexivity.
Defined.

(** X9: with the standard calendar and a month in [1,12], the outcome
    of [calculate_age] is decided by the input alone: it returns exactly
    when both boundary checks pass and the age is not negative, and an
    age that passes the checks but is negative (possible only under a
    negative minimum) ends in the [ValueError] of [Age]. *)
Theorem calculate_age_outcome (dp : IDateTimeProvider) (cfg : ValidationConfig.t)
    (w : ambient) (name : str) (age_years : Z) :
  valid_month (@get_current_month dp) →
  let call :=
    AgeCalculatorServiceImpl.calculate_age (engine dp cfg) w name age_years in
  (returns call ↔ accepted cfg name age_years ∧ 0 ≤ age_years)
  ∧ (accepted cfg name age_years → age_years < 0 → call = Raise Age.negative_age)
  ∧ (raises call ↔ ¬ accepted cfg name age_years ∨ age_years < 0).
Proof.
  intros Hm call.
  assert (Hneg : accepted cfg name age_years → age_years < 0 →
                 call = Raise Age.negative_age).
  { intros [Hn Ha] Hlt. unfold call, AgeCalculatorServiceImpl.calculate_age. simpl.
    rewrite Hn, Ha. simpl. rewrite total_days_standard by done. simpl.
    rewrite PersonName_new_nonblank by eauto using accepted_name_nonblank. simpl.
    unfold Age.new. destruct (age_years <? 0) eqn:E; [done | lia]. }
  assert (Hret : returns call ↔ accepted cfg name age_years ∧ 0 ≤ age_years).
  { split.
    - intros [r Hr].
      pose proof (calculate_age_returns_accepted _ _ _ _ _ Hr) as Hacc.
      split; [exact Hacc|].
      destruct (decide (0 ≤ age_years)) as [|Hlt]; [done|].
      rewrite (Hneg Hacc ltac:(lia)) in Hr. discriminate.
    - intros [Hacc Hpos]. eexists. by apply calculate_age_accepted. }
  split_and!; [exact Hret | exact Hneg | ].
  split.
  - intros [e He].
    destruct (decide (0 ≤ age_years)) as [Hpos|]; [|right; lia].
    left. intros Hacc.
    destruct (proj2 Hret (conj Hacc Hpos)) as [r Hr]. congruence.
  - intros H. destruct call as [r|e] eqn:E; [|by eexists].
    exfalso. destruct (proj1 Hret (ex_intro _ r eq_refl)) as [Hacc Hpos].
    destruct H; [done | lia].
Qed.

(** X9 for "Ada" at age -1 under bounds -5..150. *)
Lemma calculate_age_outcome_witness :
  let now := Build_datetime 2024 3 15 9 30 0 0 in
  let cfg := {| ValidationConfig.min_age := -5; ValidationConfig.max_age := 150;
                ValidationConfig.min_name_length := 1;
                ValidationConfig.max_name_length := 100;
                ValidationConfig.allowed_name_characters := [];
                ValidationConfig.strict_name_validation := false |} in
  AgeCalculatorServiceImpl.calculate_age (engine (fixed_date now 2024 3 15) cfg)
    (Build_ambient (py_str "0-0") now) (py_str "Ada") (-1)
  = Raise Age.negative_age.
Proof.
  intros now cfg.
  apply (calculate_age_outcome (fixed_date now 2024 3 15) cfg).
  - unfold valid_month. simpl. lia.
  - split; reflexivity.
  - lia.
Defined.

(** ** Value objects against the engine *)

(** X10: in every result that [calculate_age] returns, whatever date
    source, calendar and bounds the engine has, the fields agree with
    the conversions of the value objects: the months are
    [Age.to_months] of the years at the current month, the weeks and
    hours are [to_weeks] and [to_hours] of the days, the minutes are 60
    times the hours, and the birth year plus the age is the current
    year. *)
Theorem result_units_agree (self : AgeCalculatorServiceImpl.t) (w : ambient)
    (name : str) (age_years : Z) (r : AgeCalculationResult.t) :
  AgeCalculatorServiceImpl.calculate_age self w name age_years = Ok r →
  let dp := AgeCalculatorServiceImpl._datetime_provider self in
  ∃ a d wk hr mn,
    AgeCalculationResult.age_years r = Some a ∧ Age.years a = age_years
    ∧ AgeCalculationResult.age_months r
      = Some {| AgeInMonths.months := PyInt (Age.to_months a (@get_current_month dp)) |}
    ∧ AgeCalculationResult.age_days r = Some d
    ∧ AgeInDays.to_weeks d = Ok wk
    ∧ AgeCalculationResult.age_weeks r = Some {| AgeInWeeks.weeks := wk |}
    ∧ AgeInDays.to_hours d = Ok hr
    ∧ AgeCalculationResult.age_hours r = Some {| AgeInHours.hours := hr |}
    ∧ mul hr 60 = Ok mn
    ∧ AgeCalculationResult.age_minutes r = Some {| AgeInMinutes.minutes := mn |}
    ∧ AgeCalculationResult.birth_year r = PyInt (@get_current_year dp - Age.years a)
    ∧ AgeCalculationResult.current_year r = PyInt (@get_current_year dp).
Proof.
  unfold AgeCalculatorServiceImpl.calculate_age.
  do 3 step_bind.
  destruct (PersonName.new (PyStr name)) as [p|]; [|discriminate]. simpl.
  destruct (Age.new (PyInt age_years)) as [g|] eqn:Eg; [|discriminate]. simpl.
  intros [= <-]. simpl.
  apply Age_new_inv in Eg as [[= Hg] _].
  eexists g, _, _, _, _. unfold Age.to_months. rewrite <- Hg.
  split_and!; done.
Qed.

(** X10 on the result for "Ada", aged 30, on 2024-03-15. *)
Lemma result_units_agree_witness :
  let now := Build_datetime 2024 3 15 9 30 0 0 in
  let r := result_of (fixed_date now 2024 3 15)
             (Build_ambient (py_str "0-0") now) (py_str "Ada") 30 11032 in
  ∃ a d wk,
    AgeCalculationResult.age_years r = Some a
    ∧ AgeCalculationResult.age_days r = Some d
    ∧ AgeInDays.to_weeks d = Ok wk
    ∧ AgeCalculationResult.age_weeks r = Some {| AgeInWeeks.weeks := wk |}.
Proof.
  intros now r.
  destruct (result_units_agree
              (engine (fixed_date now 2024 3 15) ValidationConfig.default)
              (Build_ambient (py_str "0-0") now) (py_str "Ada") 30 r)
    as (a & d & wk & hr & mn & Ha & _ & _ & Hd & Hwk & Hw & _).
  - by vm_compute.
  - by exists a, d, wk.
Defined.

(** X11: [AgeInMonths.to_years] of the months that [Age.to_months]
    gives for a month in [1,12] is the age again from January to
    November, and one year more in December. *)
Theorem months_back_to_years (a : Age.t) (month : Z) :
  valid_month month →
  AgeInMonths.to_years {| AgeInMonths.months := PyInt (Age.to_months a month) |}
  = Ok (PyInt (if month =? 12 then Age.years a + 1 else Age.years a)).
Proof.
  intros Hm. unfold AgeInMonths.to_years, Age.to_months, floordiv. simpl.
  do 2 f_equal. rewrite Z.div_add_l by lia.
  unfold valid_month in Hm.
  destruct (month =? 12) eqn:E.
  - apply Z.eqb_eq in E as ->. reflexivity.
  - apply Z.eqb_neq in E. rewrite Z.div_small by lia. lia.
Qed.

(** X11 for 30 years in March and in December. *)
Lemma months_back_to_years_witness :
  AgeInMonths.to_years
    {| AgeInMonths.months := PyInt (Age.to_months {| Age.years := 30 |} 3) |}
  = Ok (PyInt 30)
  ∧ AgeInMonths.to_years
      {| AgeInMonths.months := PyInt (Age.to_months {| Age.years := 30 |} 12) |}
    = Ok (PyInt 31).
Proof.
  split.
  - apply (months_back_to_years {| Age.years := 30 |} 3). unfold valid_month. lia.
  - apply (months_back_to_years {| Age.years := 30 |} 12). unfold valid_month. lia.
Defined.

(** ** The in-memory repository *)

Section pydict.
Context {V : Type}.
Implicit Types (d : PyDict.t V) (k : pyval) (v : V).

Lemma pydict_get_setitem d k v : PyDict.get (PyDict.setitem d k v) k = Some v.
Proof.
  induction d as [|[k' v'] d IH]; simpl; unfold eq_.
  - by rewrite bool_decide_eq_true_2.
  - case_bool_decide as E; simpl; unfold eq_.
    + by rewrite bool_decide_eq_true_2.
    + by rewrite bool_decide_eq_false_2.
Qed.

Lemma pydict_get_setitem_ne d k k' v :
  k ≠ k' → PyDict.get (PyDict.setitem d k v) k' = PyDict.get d k'.
Proof.
  intros Hne. induction d as [|[k0 v0] d IH]; simpl; unfold eq_.
  - by rewrite bool_decide_eq_false_2.
  - case_bool_decide as E; simpl; unfold eq_.
    + subst k0. by rewrite !bool_decide_eq_false_2.
    + by rewrite IH.
Qed.

Lemma pydict_keys_setitem d k v :
  PyDict.keys (PyDict.setitem d k v)
  = if PyDict.contains d k then PyDict.keys d else PyDict.keys d ++ [k].
Proof.
  unfold PyDict.contains, PyDict.keys.
  induction d as [|[k' v'] d IH]; csimpl; [done|]. unfold eq_.
  case_bool_decide as E; csimpl; [done|].
  rewrite IH. by destruct (PyDict.get d k).
Qed.

Lemma pydict_values_setitem_new d k v :
  PyDict.contains d k = false →
  PyDict.values (PyDict.setitem d k v) = PyDict.values d ++ [v].
Proof.
  unfold PyDict.contains, PyDict.values.
  induction d as [|[k' v'] d IH]; csimpl; [done|]. unfold eq_.
  case_bool_decide as E; csimpl; [done|].
  intros H. by rewrite IH.
Qed.

Lemma pydict_length_setitem d k v :
  length (PyDict.setitem d k v)
  = if PyDict.contains d k then length d else S (length d).
Proof.
  unfold PyDict.contains.
  induction d as [|[k' v'] d IH]; simpl; [done|]. unfold eq_.
  case_bool_decide as E; simpl; [done|].
  rewrite IH. by destruct (PyDict.get d k).
Qed.

Lemma pydict_contains_keys d k : PyDict.contains d k = true ↔ k ∈ PyDict.keys d.
Proof.
  unfold PyDict.contains, PyDict.keys.
  induction d as [|[k' v'] d IH]; csimpl.
  - split; [discriminate | by intros ?%elem_of_nil].
  - unfold eq_. rewrite elem_of_cons. case_bool_decide as E.
    + split; [by left | done].
    + rewrite IH. split; [by right | by intros [?|?]].
Qed.

Lemma pydict_elem_of_setitem d k v k' v' :
  (k', v') ∈ PyDict.setitem d k v → (k' = k ∧ v' = v) ∨ (k', v') ∈ d.
Proof.
  induction d as [|[k0 v0] d IH]; simpl.
  - intros [= -> ->]%list_elem_of_singleton. by left.
  - unfold eq_. case_bool_decide as E.
    + subst k0. intros [[= -> ->]|H]%elem_of_cons; [by left | right; by right].
    + intros [[= -> ->]|H]%elem_of_cons; [right; by left|].
      destruct (IH H) as [?|?]; [by left | right; by right].
Qed.

Lemma pydict_get_elem_of d k v :
  NoDup (PyDict.keys d) → (k, v) ∈ d → PyDict.get d k = Some v.
Proof.
  unfold PyDict.keys.
  induction d as [|[k0 v0] d IH]; csimpl; [by intros _ ?%elem_of_nil|].
  intros [Hnot Hnd]%NoDup_cons [[= -> ->]|H]%elem_of_cons; unfold eq_.
  - by rewrite bool_decide_eq_true_2.
  - case_bool_decide as E; [|by apply IH].
    subst k0. destruct Hnot. apply list_elem_of_fmap. by exists (k, v).
Qed.

Lemma pydict_keys_delitem d k :
  NoDup (PyDict.keys d) →
  NoDup (PyDict.keys (PyDict.delitem d k))
  ∧ (k ∉ PyDict.keys (PyDict.delitem d k))
  ∧ (∀ k', k' ∈ PyDict.keys (PyDict.delitem d k) → k' ∈ PyDict.keys d).
Proof.
  unfold PyDict.keys.
  induction d as [|[k0 v0] d IH]; csimpl.
  - intros _. split_and!; [constructor | by intros ?%elem_of_nil | done].
  - intros [Hnot Hnd]%NoDup_cons. unfold eq_. case_bool_decide as E.
    + subst k0. split_and!; [done | done | by right].
    + destruct (IH Hnd) as (H1 & H2 & H3). csimpl. split_and!.
      * apply NoDup_cons. split; [|done]. intros H. by apply Hnot, H3.
      * intros [?|?]%elem_of_cons; [congruence | done].
      * intros k' [->|?]%elem_of_cons; [by left | right; auto].
Qed.

Lemma pydict_get_delitem_ne d k k' :
  k ≠ k' → PyDict.get (PyDict.delitem d k) k' = PyDict.get d k'.
Proof.
  intros Hne. induction d as [|[k0 v0] d IH]; simpl; [done|]. unfold eq_.
  case_bool_decide as E; simpl; unfold eq_.
  - subst k0. by rewrite bool_decide_eq_false_2.
  - by rewrite IH.
Qed.

Lemma pydict_length_delitem d k :
  PyDict.contains d k = true → S (length (PyDict.delitem d k)) = length d.
Proof.
  unfold PyDict.contains.
  induction d as [|[k0 v0] d IH]; simpl; [discriminate|]. unfold eq_.
  case_bool_decide as E; simpl; [done|]. intros H. by rewrite IH.
Qed.

Lemma pydict_elem_of_delitem d k k' v' :
  (k', v') ∈ PyDict.delitem d k → (k', v') ∈ d.
Proof.
  induction d as [|[k0 v0] d IH]; simpl; [done|]. unfold eq_.
  case_bool_decide as E; [by right|].
  intros [->|?]%elem_of_cons; [by left | right; auto].
Qed.

End pydict.

Lemma repo_wf_step (self : InMemoryCalculationRepository.t) (c : repo_call) :
  repo_wf self → repo_wf (repo_step self c).
Proof.
  intros [Hnd Hid]. destruct c as [r|id|]; simpl.
  - split; simpl.
    + rewrite pydict_keys_setitem.
      destruct (PyDict.contains _ _) eqn:E; [done|].
      apply NoDup_app. split_and!; [done | | apply NoDup_singleton].
      intros k Hk ->%list_elem_of_singleton.
      apply pydict_contains_keys in Hk. congruence.
    + intros k r' [[-> ->]|H]%pydict_elem_of_setitem; [done | by apply Hid].
  - unfold InMemoryCalculationRepository.delete.
    destruct (PyDict.contains _ _); [|done]. split; simpl.
    + by apply pydict_keys_delitem.
    + intros k r' H%pydict_elem_of_delitem. by apply Hid.
  - split; simpl; [constructor | by intros ? ? ?%elem_of_nil].
Qed.

Lemma repo_wf_after (cs : list repo_call) : repo_wf (repo_after cs).
Proof.
  unfold repo_after.
  assert (∀ s, repo_wf s → repo_wf (foldl repo_step s cs)) as H.
  { induction cs as [|c cs IH]; intros s Hs; simpl; [done|].
    by apply IH, repo_wf_step. }
  apply H. split; simpl; [constructor | by intros ? ? ?%elem_of_nil].
Qed.

(** X12: [save] returns the identifier of the result; a later
    [get_by_id] with that identifier gives the saved result, the last
    one saved under it, and every other identifier reads as before. *)
Theorem inmemory_save_then_get (self : InMemoryCalculationRepository.t)
    (r : AgeCalculationResult.t) :
  let saved := InMemoryCalculationRepository.save self r in
  saved.1 = AgeCalculationResult.id r
  ∧ InMemoryCalculationRepository.get_by_id saved.2 (AgeCalculationResult.id r)
    = Some r
  ∧ ∀ id, id ≠ AgeCalculationResult.id r →
          InMemoryCalculationRepository.get_by_id saved.2 id
          = InMemoryCalculationRepository.get_by_id self id.
Proof.
  intros saved. split_and!; [done | apply pydict_get_setitem |].
  intros id Hne. by apply pydict_get_setitem_ne.
Qed.

(** X13: saving under an identifier that is not stored appends the
    result to [get_all] and raises [get_count] by one; saving under a
    stored identifier keeps the count. *)
Theorem inmemory_save_count (self : InMemoryCalculationRepository.t)
    (r : AgeCalculationResult.t) :
  let s' := (InMemoryCalculationRepository.save self r).2 in
  (InMemoryCalculationRepository.get_by_id self (AgeCalculationResult.id r) = None →
   InMemoryCalculationRepository.get_all s'
   = InMemoryCalculationRepository.get_all self ++ [r]
   ∧ InMemoryCalculationRepository.get_count s'
     = InMemoryCalculationRepository.get_count self + 1)
  ∧ (is_Some (InMemoryCalculationRepository.get_by_id self
                (AgeCalculationResult.id r)) →
     InMemoryCalculationRepository.get_count s'
     = InMemoryCalculationRepository.get_count self).
Proof.
  intros s'. unfold s', InMemoryCalculationRepository.get_by_id,
    InMemoryCalculationRepository.get_all, InMemoryCalculationRepository.get_count.
  simpl. rewrite pydict_length_setitem. split.
  - intros Hnone.
    assert (PyDict.contains (InMemoryCalculationRepository._storage self)
              (AgeCalculationResult.id r) = false) as Hc
      by (unfold PyDict.contains; by rewrite Hnone).
    rewrite Hc. split; [by apply pydict_values_setitem_new | lia].
  - intros [x Hx]. unfold PyDict.contains. by rewrite Hx.
Qed.

(** X13 on an empty repository. *)
Lemma inmemory_save_count_witness :
  let r := result_of (fixed_date (Build_datetime 2024 3 15 9 30 0 0) 2024 3 15)
             (Build_ambient (py_str "0-0") (Build_datetime 2024 3 15 9 30 0 0))
             (py_str "Ada") 30 11032 in
  InMemoryCalculationRepository.get_all
    (InMemoryCalculationRepository.save InMemoryCalculationRepository.new r).2 = [r]
  ∧ InMemoryCalculationRepository.get_count
      (InMemoryCalculationRepository.save InMemoryCalculationRepository.new r).2 = 1.
Proof.
  intros r.
  apply (inmemory_save_count InMemoryCalculationRepository.new r). reflexivity.
Defined.

(** X14: in a repository built by saving, deleting and clearing,
    [delete] answers true exactly when the identifier is stored; after
    it the identifier is gone, every other identifier reads as before,
    and the count has dropped by one exactly when the answer was true. *)
Theorem inmemory_delete (cs : list repo_call) (id : pyval) :
  let s := repo_after cs in
  let deleted := InMemoryCalculationRepository.delete s id in
  (deleted.1 = true ↔ is_Some (InMemoryCalculationRepository.get_by_id s id))
  ∧ InMemoryCalculationRepository.get_by_id deleted.2 id = None
  ∧ (∀ id', id' ≠ id →
       InMemoryCalculationRepository.get_by_id deleted.2 id'
       = InMemoryCalculationRepository.get_by_id s id')
  ∧ InMemoryCalculationRepository.get_count deleted.2
    = InMemoryCalculationRepository.get_count s - (if deleted.1 then 1 else 0).
Proof.
  intros s deleted. destruct (repo_wf_after cs) as [Hnd _]. fold s in Hnd.
  unfold deleted, InMemoryCalculationRepository.delete,
    InMemoryCalculationRepository.get_by_id, InMemoryCalculationRepository.get_count.
  destruct (PyDict.contains (InMemoryCalculationRepository._storage s) id) eqn:E;
    simpl.
  - split_and!.
    + split; [intros _ | done]. unfold PyDict.contains in E.
      by destruct (PyDict.get _ id).
    + destruct (pydict_keys_delitem _ id Hnd) as (_ & Hnot & _).
      destruct (PyDict.get _ id) as [r|] eqn:Eg; [|done].
      destruct Hnot. apply pydict_contains_keys. unfold PyDict.contains.
      by rewrite Eg.
    + intros id' Hne. by apply pydict_get_delitem_ne.
    + pose proof (pydict_length_delitem _ _ E). lia.
  - unfold PyDict.contains in E.
    destruct (PyDict.get _ id) eqn:Eg; [done|].
    split_and!; [split; [done | by intros [? ?]] | done | done | lia].
Qed.

(** X15: in a repository built by saving, deleting and clearing, every
    stored result is found under its own identifier, no two stored results share an identifier,
    [get_count] is the length of [get_all], and [clear_all] reports that
    count and leaves nothing behind. *)
Theorem inmemory_invariant (cs : list repo_call) :
  let s := repo_after cs in
  (∀ r, r ∈ InMemoryCalculationRepository.get_all s →
        InMemoryCalculationRepository.get_by_id s (AgeCalculationResult.id r) = Some r)
  ∧ NoDup (AgeCalculationResult.id <$> InMemoryCalculationRepository.get_all s)
  ∧ InMemoryCalculationRepository.get_count s
    = Z.of_nat (length (InMemoryCalculationRepository.get_all s))
  ∧ (InMemoryCalculationRepository.clear_all s).1
    = InMemoryCalculationRepository.get_count s
  ∧ InMemoryCalculationRepository.get_all (InMemoryCalculationRepository.clear_all s).2
    = [].
Proof.
  intros s. destruct (repo_wf_after cs) as [Hnd Hid]. fold s in Hnd, Hid.
  unfold InMemoryCalculationRepository.get_all, InMemoryCalculationRepository.get_by_id,
    InMemoryCalculationRepository.get_count, PyDict.values.
  split_and!; try done.
  - intros r [[k r'] [-> Hin]]%list_elem_of_fmap. simpl.
    rewrite (Hid _ _ Hin). by apply pydict_get_elem_of.
  - assert (AgeCalculationResult.id <$> (InMemoryCalculationRepository._storage s).*2
            = PyDict.keys (InMemoryCalculationRepository._storage s)) as ->; [|done].
    unfold PyDict.keys. rewrite <- list_fmap_compose.
    apply Forall_fmap_ext, Forall_forall. intros [k r] Hin. simpl. by apply Hid.
  - by rewrite length_fmap.
Qed.

(** ** The file repository *)

Lemma to_dict_has_id (r : AgeCalculationResult.t) (id : pyval) :
  FileBasedCalculationRepository.has_id id (AgeCalculationResult.to_dict r)
  = eq_ (AgeCalculationResult.id r) id.
Proof.
  unfold FileBasedCalculationRepository.has_id, FileBasedCalculationRepository.get.
  pose proof (to_dict_lookups r) as H. cbv zeta in H. destruct H as (H & _).
  by rewrite H.
Qed.

Lemma has_id_true (id : pyval) (item : gmap string pyval) :
  FileBasedCalculationRepository.has_id id item = true
  ↔ FileBasedCalculationRepository.get item "id" PyNone = id.
Proof. apply bool_decide_eq_true. Qed.

Lemma has_id_other (id id' : pyval) (item : gmap string pyval) :
  FileBasedCalculationRepository.has_id id item = true → id' ≠ id →
  FileBasedCalculationRepository.has_id id' item = false.
Proof.
  intros H%has_id_true Hne. apply bool_decide_eq_false.
  intros H'. apply Hne. by rewrite <- H', <- H.
Qed.

(** The records after [save], from the records before. *)
Lemma save_data (f : FileBasedCalculationRepository.file) (r : AgeCalculationResult.t) :
  FileBasedCalculationRepository._load_data (FileBasedCalculationRepository.save f r).2
  = stored (AgeCalculationResult.id r) (AgeCalculationResult.to_dict r)
      (FileBasedCalculationRepository._load_data f).
Proof. reflexivity. Qed.

Section file_lookup.
Context (w : ambient) (rd : gmap string pyval) (id : pyval).
Hypothesis rd_id : FileBasedCalculationRepository.has_id id rd = true.

Abbreviation stored := (stored id rd).

Lemma stored_cons item data :
  stored (item :: data)
  = if FileBasedCalculationRepository.has_id id item then rd :: data
    else item :: stored data.
Proof.
  unfold stored. simpl.
  destruct (FileBasedCalculationRepository.has_id id item); [done|].
  by destruct (FileBasedCalculationRepository.first_index _ data).
Qed.

Lemma stored_lookup data :
  FileBasedCalculationRepository.get_by_id_in w (stored data) id
  = (r ← FileBasedCalculationRepository._dict_to_result w rd; Ok (Some r)).
Proof.
  induction data as [|item data IH].
  - unfold stored. simpl. by rewrite rd_id.
  - rewrite stored_cons.
    destruct (FileBasedCalculationRepository.has_id id item) eqn:E; simpl.
    + by rewrite rd_id.
    + by rewrite E.
Qed.


Lemma stored_length data :
  length (stored data)
  = match FileBasedCalculationRepository.first_index
            (FileBasedCalculationRepository.has_id id) data with
    | Some _ => length data
    | None => S (length data)
    end.
Proof.
  unfold stored. destruct (FileBasedCalculationRepository.first_index _ data).
  - by rewrite length_insert.
  - rewrite length_app. simpl. lia.
Qed.

End file_lookup.

Lemma removed_lookup w (data : list (gmap string pyval)) (id id' : pyval) :
  FileBasedCalculationRepository.get_by_id_in w
    (List.filter (λ item, negb (FileBasedCalculationRepository.has_id id item)) data) id'
  = if eq_ id' id then Ok None
    else FileBasedCalculationRepository.get_by_id_in w data id'.
Proof.
  unfold eq_. case_bool_decide as E.
  - subst id'. induction data as [|item data IH]; simpl; [done|].
    destruct (FileBasedCalculationRepository.has_id id item) eqn:Eh; simpl; [done|].
    by rewrite Eh.
  - induction data as [|item data IH]; simpl; [done|].
    destruct (FileBasedCalculationRepository.has_id id item) eqn:Eh; simpl.
    + by rewrite (has_id_other _ _ _ Eh E).
    + by rewrite IH.
Qed.

Lemma removed_length (data : list (gmap string pyval)) (id : pyval) :
  (length (List.filter
             (λ item, negb (FileBasedCalculationRepository.has_id id item)) data)
   ≤ length data)%nat
  ∧ ((length (List.filter
                (λ item, negb (FileBasedCalculationRepository.has_id id item)) data)
      < length data)%nat
     ↔ id ∈ (λ item, FileBasedCalculationRepository.get item "id" PyNone) <$> data).
Proof.
  induction data as [|item data [IH1 IH2]]; csimpl.
  - split; [lia|]. split; [lia | by intros ?%elem_of_nil].
  - rewrite elem_of_cons.
    destruct (FileBasedCalculationRepository.has_id id item) eqn:E; simpl.
    + split; [lia|]. split; [intros _; left | lia].
      unfold FileBasedCalculationRepository.has_id, eq_ in E.
      by apply bool_decide_eq_true in E.
    + split; [lia|]. rewrite <- IH2. split; [intros ?; right; lia|].
      intros [->|?]; [|lia].
      unfold FileBasedCalculationRepository.has_id, eq_ in E.
      by apply bool_decide_eq_false in E.
Qed.

Lemma get_by_id_in_absent w (data : list (gmap string pyval)) (id : pyval) :
  id ∉ (λ item, FileBasedCalculationRepository.get item "id" PyNone) <$> data →
  FileBasedCalculationRepository.get_by_id_in w data id = Ok None.
Proof.
  induction data as [|item data IH]; csimpl; [done|].
  rewrite not_elem_of_cons. intros [Hne Hnot].
  unfold FileBasedCalculationRepository.has_id, eq_.
  rewrite bool_decide_eq_false_2 by (intros H; by apply Hne).
  by apply IH.
Qed.

Lemma file_save_lookup (w : ambient) (f : FileBasedCalculationRepository.file)
    (r : AgeCalculationResult.t) :
  FileBasedCalculationRepository.get_by_id w
    (FileBasedCalculationRepository.save f r).2 (AgeCalculationResult.id r)
  = (r' ← FileBasedCalculationRepository._dict_to_result w
            (AgeCalculationResult.to_dict r);
     Ok (Some r')).
Proof.
  unfold FileBasedCalculationRepository.get_by_id. rewrite save_data.
  apply stored_lookup. rewrite to_dict_has_id. by apply bool_decide_eq_true.
Qed.


(** X17: an engine result saved to the file and read back under its
    identifier is the result with each numeric value object kept only
    when its number is not 0. *)
Theorem file_save_engine_result dp (w w' : ambient)
    (f : FileBasedCalculationRepository.file) (name : str) (age_years D : Z) :
  nonblank name → 0 ≤ age_years →
  FileBasedCalculationRepository.get_by_id w'
    (FileBasedCalculationRepository.save f (result_of dp w name age_years D)).2
    (PyStr (uuid4 w))
  = Ok (Some (round_trip_of dp w w' name age_years D)).
Proof.
  intros Hn Ha.
  pose proof (file_save_lookup w' f (result_of dp w name age_years D)) as Hget.
  change (AgeCalculationResult.id (result_of dp w name age_years D))
    with (PyStr (uuid4 w)) in Hget.
  rewrite Hget. by rewrite round_trip_engine_result.
Qed.

(** X17 for "Ada", aged 30, saved to a file that did not exist. *)
Lemma file_save_engine_result_witness :
  let now := Build_datetime 2024 3 15 9 30 0 0 in
  let dp := fixed_date now 2024 3 15 in
  let w := Build_ambient (py_str "0-0") now in
  FileBasedCalculationRepository.get_by_id w
    (FileBasedCalculationRepository.save FileBasedCalculationRepository.Missing
       (result_of dp w (py_str "Ada") 30 11032)).2
    (PyStr (py_str "0-0"))
  = Ok (Some (round_trip_of dp w w (py_str "Ada") 30 11032)).
Proof.
  intros now dp w.
  apply (file_save_engine_result dp w w FileBasedCalculationRepository.Missing
           (py_str "Ada") 30 11032).
  - by vm_compute.
  - lia.
Defined.

(** X18: [delete] answers true exactly when some record of the file
    carries the identifier; it then removes every such record, so the
    identifier reads as absent, and every other identifier reads as
    before. When it answers false the file is left as it was. *)
Theorem file_delete (w : ambient) (f : FileBasedCalculationRepository.file)
    (id : pyval) :
  let deleted := FileBasedCalculationRepository.delete f id in
  (deleted.1 = true ↔ id ∈ file_ids f)
  ∧ (deleted.1 = false → deleted.2 = f)
  ∧ FileBasedCalculationRepository.get_by_id w deleted.2 id = Ok None
  ∧ (id ∉ file_ids deleted.2)
  ∧ ∀ id', id' ≠ id →
           FileBasedCalculationRepository.get_by_id w deleted.2 id'
           = FileBasedCalculationRepository.get_by_id w f id'.
Proof.
  intros deleted. unfold deleted, FileBasedCalculationRepository.delete, file_ids.
  destruct (removed_length (FileBasedCalculationRepository._load_data f) id)
    as [Hle Hlt].
  destruct (_ <? _)%nat eqn:E; simpl.
  - apply Nat.ltb_lt in E. split_and!.
    + split; [intros _; by apply Hlt | done].
    + done.
    + unfold FileBasedCalculationRepository.get_by_id. simpl.
      rewrite removed_lookup. unfold eq_. by rewrite bool_decide_eq_true_2.
    + intros [item [Hid Hin]]%list_elem_of_fmap.
      apply list_elem_of_In, filter_In in Hin as [_ Hin].
      unfold FileBasedCalculationRepository.has_id, eq_ in Hin.
      apply negb_true_iff, bool_decide_eq_false in Hin. congruence.
    + intros id' Hne. unfold FileBasedCalculationRepository.get_by_id. simpl.
      rewrite removed_lookup. unfold eq_. by rewrite bool_decide_eq_false_2.
  - apply Nat.ltb_ge in E.
    assert (Hnot : id ∉ (λ item, FileBasedCalculationRepository.get item "id" PyNone)
                         <$> FileBasedCalculationRepository._load_data f)
      by (rewrite <- Hlt; lia).
    split_and!.
    + split; [done | intros H; by destruct Hnot].
    + done.
    + by apply get_by_id_in_absent.
    + exact Hnot.
    + done.
Qed.

(** A file that is absent or is not JSON reads as empty; the
    constructor creates the empty list only when the file is absent, and
    the next [save] replaces a file that is not JSON by the one new
    record. *)
Example file_unreadable_is_empty (w : ambient) (r : AgeCalculationResult.t)
    (id : pyval) (f : FileBasedCalculationRepository.file) :
  FileBasedCalculationRepository.new FileBasedCalculationRepository.Missing
  = FileBasedCalculationRepository.Json []
  ∧ FileBasedCalculationRepository.new FileBasedCalculationRepository.Garbage
    = FileBasedCalculationRepository.Garbage
  ∧ FileBasedCalculationRepository.get_by_id w FileBasedCalculationRepository.Garbage id
    = Ok None
  ∧ FileBasedCalculationRepository.delete FileBasedCalculationRepository.Garbage id
    = (false, FileBasedCalculationRepository.Garbage)
  ∧ FileBasedCalculationRepository.save FileBasedCalculationRepository.Garbage r
    = (AgeCalculationResult.id r,
       FileBasedCalculationRepository.Json [AgeCalculationResult.to_dict r])
  ∧ (FileBasedCalculationRepository.clear_all f).1
    = Z.of_nat (length (FileBasedCalculationRepository._load_data f))
  ∧ FileBasedCalculationRepository.get_by_id w
      (FileBasedCalculationRepository.clear_all f).2 id = Ok None.
Proof. by split_and!. Qed.

Lemma stored_ids (id : pyval) (rd : gmap string pyval)
    (data : list (gmap string pyval)) :
  FileBasedCalculationRepository.has_id id rd = true →
  (λ item, FileBasedCalculationRepository.get item "id" PyNone) <$> stored id rd data
  = if bool_decide
         (id ∈ (λ item, FileBasedCalculationRepository.get item "id" PyNone) <$> data)
    then (λ item, FileBasedCalculationRepository.get item "id" PyNone) <$> data
    else ((λ item, FileBasedCalculationRepository.get item "id" PyNone) <$> data)
         ++ [id].
Proof.
  intros Hrd%has_id_true. induction data as [|item data IH].
  - unfold stored. csimpl. by rewrite Hrd.
  - rewrite stored_cons.
    destruct (FileBasedCalculationRepository.has_id id item) eqn:E; csimpl.
    + apply has_id_true in E. rewrite Hrd, E.
      rewrite bool_decide_eq_true_2 by left. done.
    + rewrite IH.
      assert (FileBasedCalculationRepository.get item "id" PyNone ≠ id) as Hne.
      { intros H%has_id_true. congruence. }
      case_bool_decide as E1; case_bool_decide as E2; try done.
      * destruct E2. by right.
      * apply elem_of_cons in E2 as [?|?]; [by destruct Hne | done].
Qed.

(** X19: [save] leaves the sequence of identifiers of the file as it
    was when the identifier of the result is among them, and appends it
    otherwise; so identifiers that were distinct stay distinct. *)
Theorem file_save_ids (f : FileBasedCalculationRepository.file)
    (r : AgeCalculationResult.t) :
  file_ids (FileBasedCalculationRepository.save f r).2
  = (if bool_decide (AgeCalculationResult.id r ∈ file_ids f)
     then file_ids f else file_ids f ++ [AgeCalculationResult.id r])
  ∧ (NoDup (file_ids f) →
     NoDup (file_ids (FileBasedCalculationRepository.save f r).2)).
Proof.
  assert (H : file_ids (FileBasedCalculationRepository.save f r).2
              = if bool_decide (AgeCalculationResult.id r ∈ file_ids f)
                then file_ids f else file_ids f ++ [AgeCalculationResult.id r]).
  { unfold file_ids. rewrite save_data. apply stored_ids.
    rewrite to_dict_has_id. by apply bool_decide_eq_true. }
  split; [exact H|]. intros Hnd. rewrite H.
  case_bool_decide as E; [done|].
  apply NoDup_app. split_and!; [done | | apply NoDup_singleton].
  by intros k Hk ->%list_elem_of_singleton.
Qed.

(** ** What the round trip keeps *)

Lemma kept_or_zero {A} (n : Z) (x : A) (f : A → pyval) :
  f x = PyInt n →
  MainController.field_or_zero (kept (PyInt n) x) f = PyInt n.
Proof.
  intros Hf. unfold kept, truthy.
  destruct (n =? 0) eqn:E; simpl; [|done].
  apply Z.eqb_eq in E. by rewrite E.
Qed.

(** X20: the view model that [_map_to_view_model] builds from an engine
    result is the same before and after the result went through
    [to_dict] and [_dict_to_result]: a field that the round trip drops
    because it is 0 is shown as 0 again. *)
Theorem view_model_survives_round_trip (title : str → str) dp (w w' : ambient)
    (name : str) (age_years D : Z) :
  nonblank name → 0 ≤ age_years →
  ∃ r',
    FileBasedCalculationRepository._dict_to_result w'
      (AgeCalculationResult.to_dict (result_of dp w name age_years D)) = Ok r'
    ∧ MainController._map_to_view_model title r'
      = MainController._map_to_view_model title (result_of dp w name age_years D).
Proof.
  intros Hn Ha. eexists. split; [by apply round_trip_engine_result|].
  unfold MainController._map_to_view_model, round_trip_of, result_of. simpl.
  rewrite !kept_or_zero by done. reflexivity.
Qed.

(** X20 for a newborn "Ada" on 2024-01-03, with a [title] that leaves
    the text as it is. *)
Lemma view_model_survives_round_trip_witness :
  let now := Build_datetime 2024 1 3 9 30 0 0 in
  let dp := fixed_date now 2024 1 3 in
  let w := Build_ambient (py_str "0-0") now in
  ∃ r',
    FileBasedCalculationRepository._dict_to_result w
      (AgeCalculationResult.to_dict (result_of dp w (py_str "Ada") 0 3)) = Ok r'
    ∧ MainController._map_to_view_model (λ s, s) r'
      = MainController._map_to_view_model (λ s, s)
          (result_of dp w (py_str "Ada") 0 3).
Proof.
  intros now dp w.
  apply (view_model_survives_round_trip (λ s, s) dp w w (py_str "Ada") 0 3).
  - by vm_compute.
  - lia.
Defined.

(** X21: for an accepted name and age on a date with a month in [1,12]
    and a day of at least 1, the result of [calculate_age] comes back
    from [to_dict] and [_dict_to_result] with its months, days, hours,
    minutes, birth year and current year as they were; the weeks come
    back exactly when at least 7 days were counted, and all numeric
    fields together exactly when the age is not 0. *)
Theorem round_trip_exact_iff dp cfg (w w' : ambient) (name : str) (age_years : Z) :
  valid_month (@get_current_month dp) → 1 ≤ @get_current_day dp →
  accepted cfg name age_years → 0 ≤ age_years →
  ∃ r r' D,
    AgeCalculatorServiceImpl.calculate_age (engine dp cfg) w name age_years = Ok r
    ∧ FileBasedCalculationRepository._dict_to_result w'
        (AgeCalculationResult.to_dict r) = Ok r'
    ∧ AgeCalculationResult.age_days r = Some {| AgeInDays.days := PyInt D |}
    ∧ AgeCalculationResult.age_months r' = AgeCalculationResult.age_months r
    ∧ AgeCalculationResult.age_days r' = AgeCalculationResult.age_days r
    ∧ AgeCalculationResult.age_hours r' = AgeCalculationResult.age_hours r
    ∧ AgeCalculationResult.age_minutes r' = AgeCalculationResult.age_minutes r
    ∧ AgeCalculationResult.birth_year r' = AgeCalculationResult.birth_year r
    ∧ AgeCalculationResult.current_year r' = AgeCalculationResult.current_year r
    ∧ (AgeCalculationResult.age_weeks r' = AgeCalculationResult.age_weeks r ↔ 7 ≤ D)
    ∧ (AgeCalculationResult.age_years r' = AgeCalculationResult.age_years r
       ↔ age_years ≠ 0)
    ∧ (numeric_fields r' = numeric_fields r ↔ age_years ≠ 0).
Proof.
  intros Hm Hd Hacc Ha.
  pose proof (full_year_days_bounds age_years (@get_current_year dp) Ha) as Hy.
  pose proof (table_days_before_bounds (@get_current_month dp)
                (StandardLeapYearCalculator.is_leap_year (@get_current_year dp)) Hm)
    as Hb.
  assert (HD : 365 * age_years + 1 ≤ total_days_formula dp age_years)
    by (unfold total_days_formula; lia).
  set (D := total_days_formula dp age_years) in *.
  assert (Hn : nonblank name)
    by (destruct Hacc as [Hn _]; by apply accepted_name_nonblank in Hn).
  exists (result_of dp w name age_years D), (round_trip_of dp w w' name age_years D), D.
  assert (Hweeks : 0 < D `div` 7 ↔ 7 ≤ D).
  { split; intros H.
    - destruct (decide (7 ≤ D)) as [|Hlt]; [done|].
      rewrite Z.div_small in H by lia. lia.
    - apply Z.div_str_pos. lia. }
  assert (Hw0 : 0 ≤ D `div` 7) by (apply Z.div_pos; lia).
  unfold valid_month in Hm.
  assert (Hk : ∀ {A} (n : Z) (x : A), n ≠ 0 → kept (PyInt n) x = Some x).
  { intros A n x Hne. unfold kept, truthy.
    destruct (n =? 0) eqn:E; [|done]. apply Z.eqb_eq in E. done. }
  assert (Hz : ∀ {A} (x : A), kept (PyInt 0) x = None) by done.
  split_and!.
  - by apply calculate_age_accepted.
  - by apply round_trip_engine_result.
  - done.
  - simpl. apply Hk. lia.
  - simpl. apply Hk. lia.
  - simpl. apply Hk. lia.
  - simpl. apply Hk. lia.
  - done.
  - done.
  - simpl. split.
    + intros H. apply Hweeks.
      destruct (decide (D `div` 7 = 0)) as [E|]; [|lia].
      rewrite E, Hz in H. discriminate.
    + intros H. apply Hk. apply Hweeks in H. lia.
  - simpl. split.
    + intros H ->. rewrite Hz in H. discriminate.
    + intros H. by apply Hk.
  - unfold numeric_fields. simpl. split.
    + intros H ->. rewrite Hz in H. discriminate.
    + intros H. assert (7 ≤ D) as H7 by lia. apply Hweeks in H7.
      rewrite !Hk by lia. reflexivity.
Qed.

(** X21 for "Ada", aged 30, on 2024-03-15. *)
Lemma round_trip_exact_iff_witness :
  let now := Build_datetime 2024 3 15 9 30 0 0 in
  let w := Build_ambient (py_str "0-0") now in
  ∃ r r',
    AgeCalculatorServiceImpl.calculate_age
      (engine (fixed_date now 2024 3 15) ValidationConfig.default) w (py_str "Ada") 30
    = Ok r
    ∧ FileBasedCalculationRepository._dict_to_result w
        (AgeCalculationResult.to_dict r) = Ok r'
    ∧ numeric_fields r' = numeric_fields r.
Proof.
  intros now w.
  destruct (round_trip_exact_iff (fixed_date now 2024 3 15) ValidationConfig.default
              w w (py_str "Ada") 30)
    as (r & r' & D & Hr & Hr' & _ & _ & _ & _ & _ & _ & _ & _ & _ & Hall).
  - unfold valid_month. simpl. lia.
  - simpl. lia.
  - split; reflexivity.
  - lia.
  - exists r, r'. split_and!; [done | done |]. apply Hall. lia.
Defined.

(** ** The main view model *)

(** X22: after any sequence of [set_loading], [set_success],
    [set_error] and [reset] on a fresh view model, [has_result] holds
    exactly in the state SUCCESS, [has_error] only in the state ERROR,
    never both; while loading neither holds, and in the state ERROR no
    result is kept. *)
Theorem view_model_states (cs : list view_call) :
  let m := view_after cs in
  (MainViewModel.has_result m = true ↔ MainViewModel.state m = SUCCESS)
  ∧ (MainViewModel.has_error m = true → MainViewModel.state m = ERROR)
  ∧ ¬ (MainViewModel.has_result m = true ∧ MainViewModel.has_error m = true)
  ∧ (MainViewModel.is_loading m = true →
     MainViewModel.has_result m = false ∧ MainViewModel.has_error m = false)
  ∧ (MainViewModel.state m = ERROR → MainViewModel.result m = None).
Proof.
  intros m.
  set (I := λ m : MainViewModel.t,
         (MainViewModel.state m = SUCCESS → is_Some (MainViewModel.result m))
         ∧ (MainViewModel.state m ≠ ERROR →
            ErrorViewModel.message (MainViewModel.error m) = [])
         ∧ (MainViewModel.state m = ERROR → MainViewModel.result m = None)).
  assert (Hstep : ∀ m c, I m → I (view_step m c)).
  { intros m0 c (H1 & H2 & H3). destruct c; unfold I; simpl; split_and!;
      try done; by eauto. }
  assert (HI : I m).
  { unfold m, view_after.
    assert (∀ m0, I m0 → I (foldl view_step m0 cs)) as H.
    { induction cs as [|c cs IH]; intros m0 H0; simpl; [done|].
      by apply IH, Hstep. }
    apply H. unfold I. simpl. split_and!; done. }
  destruct HI as (H1 & H2 & H3).
  assert (Hres : MainViewModel.has_result m = true ↔ MainViewModel.state m = SUCCESS).
  { unfold MainViewModel.has_result. split.
    - destruct (MainViewModel.result m); [|done]. apply bool_decide_eq_true.
    - intros Hs. destruct (H1 Hs) as [x ->]. by apply bool_decide_eq_true. }
  assert (Herr : MainViewModel.has_error m = true → MainViewModel.state m = ERROR).
  { unfold MainViewModel.has_error, ErrorViewModel.has_error, truthy.
    intros He. destruct (decide (MainViewModel.state m = ERROR)) as [|Hne]; [done|].
    rewrite (H2 Hne) in He. done. }
  split_and!; [exact Hres | exact Herr | | | exact H3].
  - intros [Hr He]. apply Hres in Hr. apply Herr in He. congruence.
  - unfold MainViewModel.is_loading. intros Hl%bool_decide_eq_true. split.
    + apply not_true_iff_false. rewrite Hres. congruence.
    + apply not_true_iff_false. intros He%Herr. congruence.
Qed.

(** An error with an empty message puts the view model in the state
    ERROR without [has_error]. *)
Example empty_error_message :
  let m := view_after [SetLoading; SetError [] None] in
  MainViewModel.state m = ERROR ∧ MainViewModel.has_error m = false.
Proof. done. Qed.
